(** * TryLens.ai: the composite-request pipeline

    A shallow embedding of the three front-end builds of the repository
    (the plain build of [index.tsx], and the try-on and the composite
    builds that keep a history), and the properties of their
    request/response pipeline: prompt building, request construction,
    response extraction, the result store and the bounded history. *)

From Stdlib Require Import String Ascii List Bool Arith Lia.
From Stdlib Require Import DecimalString.
Import ListNotations.
Local Open Scope string_scope.
Local Open Scope list_scope.

(** ** The JavaScript values the handlers rely on *)

Module JS.

(** [v] of type [string | undefined] used as a condition: [undefined] and
    the empty string are falsy. *)
Definition truthy (v : option string) : bool :=
  match v with
  | None => false
  | Some EmptyString => false
  | Some (String _ _) => true
  end.

(** [v || d] for [v : string | undefined]. *)
Definition or_else (v : option string) (d : string) : string :=
  match v with
  | None => d
  | Some EmptyString => d
  | Some (String c r) => String c r
  end.

(** [xs?.[0]] for [xs : T[] | null | undefined]. *)
Definition first {A : Type} (xs : option (list A)) : option A :=
  match xs with
  | Some (x :: _) => Some x
  | _ => None
  end.

(** [s.split(sep)] for a one-character separator. *)
Fixpoint split (sep : ascii) (s : string) : list string :=
  match s with
  | EmptyString => [EmptyString]
  | String c r =>
      if Ascii.eqb c sep then EmptyString :: split sep r
      else match split sep r with
           | h :: t => String c h :: t
           | [] => [String c EmptyString]
           end
  end.

(** [xs[i]] on an array: [undefined] out of range. *)
Definition index {A : Type} (xs : list A) (i : nat) : option A := nth_error xs i.

(** [xs.unshift(x)] and [xs.pop()] as the array they leave behind. *)
Definition unshift {A : Type} (x : A) (xs : list A) : list A := x :: xs.
Definition pop {A : Type} (xs : list A) : list A := removelast xs.

(** A number in a template literal, for the indices the code prints. *)
Definition showNat (n : nat) : string := NilEmpty.string_of_uint (Nat.to_uint n).

(** Line feed, as the template literals of the prompts contain it. *)
Definition nl : string := String (ascii_of_nat 10) EmptyString.

(** [hay.includes(needle)]. *)
Fixpoint includes (needle hay : string) : bool :=
  if String.prefix needle hay then true
  else match hay with
       | EmptyString => false
       | String _ r => includes needle r
       end.

End JS.

(** ** Data model *)

(** The file objects of the two upload inputs.  Reading a file through the
    platform's [FileReader.readAsDataURL] is outside the code: the file
    carries what the read yields, [None] when the reader reports an error. *)
Record File := {
  file_name : string;
  file_type : string;
  file_dataURL : option string
}.

(** The object a request carries as [inlineData]: what [fileToGenerativePart]
    resolved to.  [data] is [split(',')[1]] of the data URL, [undefined] when
    the URL has no comma; the builds with a history add the [url] field, the
    plain build has none. *)
Record InlineData := {
  id_mimeType : string;
  id_data : option string;
  id_url : option string
}.

Inductive Modality := IMAGE | TEXT.

Inductive RequestPart :=
| ReqInlineData (p : InlineData)
| ReqText (t : string).

Record Request := {
  req_model : string;
  req_parts : list RequestPart;
  req_responseModalities : list Modality
}.

(** The response of the generation service, as far as the code reads it. *)
Record Blob := { mimeType : string; data : string }.
Record Part := { inlineData : option Blob; part_text : option string }.
Record Content := { parts : option (list Part) }.
Record Candidate := { content : option Content }.
Record Response := { candidates : option (list Candidate); text : option string }.

(** The service is an outside collaborator: it answers a request with a
    response or fails (the awaited promise rejects). *)
Definition Service := Request -> option Response.

(** [type HistoryItem = { original: string; variants: string[] }].  The code
    never writes to an item or to its [variants] array after building it, so
    an item is modelled by its value. *)
Record HistoryItem := { original : string; variants : list string }.

(** What the user has set when the generate button is clicked. *)
Record Inputs := {
  productUpload_files : option (list File);
  photoUpload_files : option (list File);
  API_KEY : option string;
  scaleSlider_value : string;
  shadowSlider_value : string;
  placementSelect_value : string
}.

(** ** Effects: alerts, the console, the network; exceptions *)

Inductive Event :=
| Alert (msg : string)
| ConsoleError (msg : string)
| GenerateContent (req : Request).

Inductive Completion (A : Type) :=
| Normal (a : A)
| Throw.
Arguments Normal {A} a.
Arguments Throw {A}.

(** A computation over the page state [St]: it completes normally or throws,
    leaves a state behind in both cases, and emits events in order. *)
Definition Eff (St A : Type) : Type := St -> Completion A * St * list Event.

Definition ret {St A} (a : A) : Eff St A := fun s => (Normal a, s, []).

Definition bind {St A B} (m : Eff St A) (k : A -> Eff St B) : Eff St B :=
  fun s =>
    match m s with
    | (Normal a, s1, e1) =>
        match k a s1 with
        | (r, s2, e2) => (r, s2, e1 ++ e2)
        end
    | (Throw, s1, e1) => (Throw, s1, e1)
    end.

Definition throw {St A} : Eff St A := fun s => (Throw, s, []).
Definition emit {St} (e : Event) : Eff St unit := fun s => (Normal tt, s, [e]).
Definition modify {St} (f : St -> St) : Eff St unit := fun s => (Normal tt, f s, []).
Definition get {St} : Eff St St := fun s => (Normal s, s, []).

(** [try { body } catch { handler } finally { fin }], for a handler and a
    finally block that do not throw themselves. *)
Definition tryCatchFinally {St} (body handler fin : Eff St unit) : Eff St unit :=
  fun s =>
    match body s with
    | (Normal _, s1, e1) =>
        match fin s1 with
        | (r, s2, e2) => (r, s2, e1 ++ e2)
        end
    | (Throw, s1, e1) =>
        match handler s1 with
        | (_, s2, e2) =>
            match fin s2 with
            | (r, s3, e3) => (r, s3, e1 ++ e2 ++ e3)
            end
        end
    end.

Declare Scope eff_scope.
Delimit Scope eff_scope with eff.
Notation "x <- m ;; k" := (bind m (fun x => k))
  (at level 61, m at next level, right associativity) : eff_scope.
Notation "m ;;; k" := (bind m (fun _ => k))
  (at level 61, right associativity) : eff_scope.

Definition stateOf {St A} (r : Completion A * St * list Event) : St := snd (fst r).
Definition eventsOf {St A} (r : Completion A * St * list Event) : list Event := snd r.

(** The requests that reached the network collaborator. *)
Fixpoint dispatched (es : list Event) : list Request :=
  match es with
  | [] => []
  | GenerateContent r :: es' => r :: dispatched es'
  | _ :: es' => dispatched es'
  end.

(** ** Code shared by the three builds *)

(** [ai.models.generateContent(req)], awaited. *)
Definition generateContent {St} (service : Service) (req : Request) : Eff St Response :=
  (emit (GenerateContent req) ;;;
   match service req with
   | Some response => ret response
   | None => throw
   end)%eff.

(** The request every build sends. *)
Definition buildRequest (productPart photoPart : InlineData) (prompt : string) : Request :=
  {| req_model := "gemini-2.5-flash-image-preview";
     req_parts := [ReqInlineData productPart; ReqInlineData photoPart; ReqText prompt];
     req_responseModalities := [IMAGE; TEXT] |}.

(** The guard of the click handler. *)
Definition inputsReady (i : Inputs) : option (File * File) :=
  match JS.first (productUpload_files i), JS.first (photoUpload_files i), JS.truthy (API_KEY i) with
  | Some productFile, Some photoFile, true => Some (productFile, photoFile)
  | _, _, _ => None
  end.

(** *** Response extraction *)

(** [response.candidates?.[0]?.content?.parts?.filter(part => part.inlineData)] *)
Definition hasInlineData (p : Part) : bool :=
  match inlineData p with Some _ => true | None => false end.

Definition imageParts (response : Response) : option (list Part) :=
  match JS.first (candidates response) with
  | None => None
  | Some candidate =>
      match content candidate with
      | None => None
      | Some c =>
          match parts c with
          | None => None
          | Some ps => Some (filter hasInlineData ps)
          end
      end
  end.

Definition dataURL (b : Blob) : string :=
  "data:" ++ mimeType b ++ ";base64," ++ data b.

(** [imageParts.map(part => `data:${part.inlineData!.mimeType};base64,${part.inlineData!.data}`)]:
    reading a field of an absent [inlineData] is a [TypeError], here [None]. *)
Fixpoint generatedSourcesOf (ps : list Part) : option (list string) :=
  match ps with
  | [] => Some []
  | p :: ps' =>
      match inlineData p with
      | None => None
      | Some b =>
          match generatedSourcesOf ps' with
          | None => None
          | Some srcs => Some (dataURL b :: srcs)
          end
      end
  end.

Definition noImageMessage (response : Response) : string :=
  JS.or_else (text response) "No text response.".

(** The outcome of the extraction: the image sources, the failure with its
    explanation, or a [TypeError] inside the mapping. *)
Inductive Extracted :=
| Images (sources : list string)
| NoImageReturned (explanation : string)
| ExtractTypeError.

Definition extract (response : Response) : Extracted :=
  match imageParts response with
  | Some ((_ :: _) as ps) =>
      (* imageParts && imageParts.length > 0 *)
      match generatedSourcesOf ps with
      | Some generatedSources => Images generatedSources
      | None => ExtractTypeError
      end
  | _ => NoImageReturned (noImageMessage response)
  end.

(** ** The builds with a result store and a history

    The try-on build and the composite build share every line of the code
    below; they differ in the prompt alone, which is a parameter here. *)

Module HistoryBuild.

(** The children of [variantsContainer]: a loading placeholder, or a
    thumbnail with its source, the index its click listener captured (its
    [alt] is [Variant ${index + 1}]) and whether it has the class
    [active]. *)
Inductive VariantChild :=
| Placeholder
| Thumbnail (src : string) (index : nat) (active : bool).

(** The children of [historyContainer]: the empty-state message, or an
    image with its source [item.variants[0]], its index (its [alt] is
    [History item ${index + 1}]) and the item its click listener
    captured. *)
Inductive HistoryChild :=
| HistoryEmpty
| HistoryImg (src : option string) (index : nat) (item : HistoryItem).

(** The module-level variables of the page and the properties of the
    elements the handlers write. *)
Record State := mkState {
  originalPhotoSrc : string;
  currentGeneratedSources : list string;
  history : list HistoryItem;
  historyEmptyMsg : bool;
  beforeImage_src : string;
  afterImage_src : string;
  afterImage_clipPath : string;
  comparisonHandle_left : string;
  comparisonSlider_value : nat;
  comparisonContainer_loading : bool;
  variantsContainer : list VariantChild;
  historyContainer : list HistoryChild;
  downloadButton_display : string;
  outputContainer_display : string;
  generateButton_disabled : bool;
  buttonText : string;
  spinner_display : string
}.

Definition set_originalPhotoSrc (v : string) (s : State) : State :=
  mkState v (currentGeneratedSources s) (history s) (historyEmptyMsg s)
    (beforeImage_src s) (afterImage_src s) (afterImage_clipPath s)
    (comparisonHandle_left s) (comparisonSlider_value s)
    (comparisonContainer_loading s) (variantsContainer s) (historyContainer s)
    (downloadButton_display s) (outputContainer_display s) (generateButton_disabled s)
    (buttonText s) (spinner_display s).

Definition set_currentGeneratedSources (v : list string) (s : State) : State :=
  mkState (originalPhotoSrc s) v (history s) (historyEmptyMsg s) (beforeImage_src s)
    (afterImage_src s) (afterImage_clipPath s) (comparisonHandle_left s)
    (comparisonSlider_value s) (comparisonContainer_loading s) (variantsContainer s)
    (historyContainer s) (downloadButton_display s) (outputContainer_display s)
    (generateButton_disabled s) (buttonText s) (spinner_display s).

Definition set_history (v : list HistoryItem) (s : State) : State :=
  mkState (originalPhotoSrc s) (currentGeneratedSources s) v (historyEmptyMsg s)
    (beforeImage_src s) (afterImage_src s) (afterImage_clipPath s)
    (comparisonHandle_left s) (comparisonSlider_value s)
    (comparisonContainer_loading s) (variantsContainer s) (historyContainer s)
    (downloadButton_display s) (outputContainer_display s) (generateButton_disabled s)
    (buttonText s) (spinner_display s).

Definition set_beforeImage_src (v : string) (s : State) : State :=
  mkState (originalPhotoSrc s) (currentGeneratedSources s) (history s)
    (historyEmptyMsg s) v (afterImage_src s) (afterImage_clipPath s)
    (comparisonHandle_left s) (comparisonSlider_value s)
    (comparisonContainer_loading s) (variantsContainer s) (historyContainer s)
    (downloadButton_display s) (outputContainer_display s) (generateButton_disabled s)
    (buttonText s) (spinner_display s).

Definition set_afterImage_src (v : string) (s : State) : State :=
  mkState (originalPhotoSrc s) (currentGeneratedSources s) (history s)
    (historyEmptyMsg s) (beforeImage_src s) v (afterImage_clipPath s)
    (comparisonHandle_left s) (comparisonSlider_value s)
    (comparisonContainer_loading s) (variantsContainer s) (historyContainer s)
    (downloadButton_display s) (outputContainer_display s) (generateButton_disabled s)
    (buttonText s) (spinner_display s).

Definition set_afterImage_clipPath (v : string) (s : State) : State :=
  mkState (originalPhotoSrc s) (currentGeneratedSources s) (history s)
    (historyEmptyMsg s) (beforeImage_src s) (afterImage_src s) v
    (comparisonHandle_left s) (comparisonSlider_value s)
    (comparisonContainer_loading s) (variantsContainer s) (historyContainer s)
    (downloadButton_display s) (outputContainer_display s) (generateButton_disabled s)
    (buttonText s) (spinner_display s).

Definition set_comparisonHandle_left (v : string) (s : State) : State :=
  mkState (originalPhotoSrc s) (currentGeneratedSources s) (history s)
    (historyEmptyMsg s) (beforeImage_src s) (afterImage_src s) (afterImage_clipPath s)
    v (comparisonSlider_value s) (comparisonContainer_loading s) (variantsContainer s)
    (historyContainer s) (downloadButton_display s) (outputContainer_display s)
    (generateButton_disabled s) (buttonText s) (spinner_display s).

Definition set_comparisonSlider_value (v : nat) (s : State) : State :=
  mkState (originalPhotoSrc s) (currentGeneratedSources s) (history s)
    (historyEmptyMsg s) (beforeImage_src s) (afterImage_src s) (afterImage_clipPath s)
    (comparisonHandle_left s) v (comparisonContainer_loading s) (variantsContainer s)
    (historyContainer s) (downloadButton_display s) (outputContainer_display s)
    (generateButton_disabled s) (buttonText s) (spinner_display s).

Definition set_comparisonContainer_loading (v : bool) (s : State) : State :=
  mkState (originalPhotoSrc s) (currentGeneratedSources s) (history s)
    (historyEmptyMsg s) (beforeImage_src s) (afterImage_src s) (afterImage_clipPath s)
    (comparisonHandle_left s) (comparisonSlider_value s) v (variantsContainer s)
    (historyContainer s) (downloadButton_display s) (outputContainer_display s)
    (generateButton_disabled s) (buttonText s) (spinner_display s).

Definition set_variantsContainer (v : list VariantChild) (s : State) : State :=
  mkState (originalPhotoSrc s) (currentGeneratedSources s) (history s)
    (historyEmptyMsg s) (beforeImage_src s) (afterImage_src s) (afterImage_clipPath s)
    (comparisonHandle_left s) (comparisonSlider_value s)
    (comparisonContainer_loading s) v (historyContainer s) (downloadButton_display s)
    (outputContainer_display s) (generateButton_disabled s) (buttonText s)
    (spinner_display s).

Definition set_historyContainer (v : list HistoryChild) (s : State) : State :=
  mkState (originalPhotoSrc s) (currentGeneratedSources s) (history s)
    (historyEmptyMsg s) (beforeImage_src s) (afterImage_src s) (afterImage_clipPath s)
    (comparisonHandle_left s) (comparisonSlider_value s)
    (comparisonContainer_loading s) (variantsContainer s) v (downloadButton_display s)
    (outputContainer_display s) (generateButton_disabled s) (buttonText s)
    (spinner_display s).

Definition set_downloadButton_display (v : string) (s : State) : State :=
  mkState (originalPhotoSrc s) (currentGeneratedSources s) (history s)
    (historyEmptyMsg s) (beforeImage_src s) (afterImage_src s) (afterImage_clipPath s)
    (comparisonHandle_left s) (comparisonSlider_value s)
    (comparisonContainer_loading s) (variantsContainer s) (historyContainer s) v
    (outputContainer_display s) (generateButton_disabled s) (buttonText s)
    (spinner_display s).

Definition set_outputContainer_display (v : string) (s : State) : State :=
  mkState (originalPhotoSrc s) (currentGeneratedSources s) (history s)
    (historyEmptyMsg s) (beforeImage_src s) (afterImage_src s) (afterImage_clipPath s)
    (comparisonHandle_left s) (comparisonSlider_value s)
    (comparisonContainer_loading s) (variantsContainer s) (historyContainer s)
    (downloadButton_display s) v (generateButton_disabled s) (buttonText s)
    (spinner_display s).

Definition set_generateButton_disabled (v : bool) (s : State) : State :=
  mkState (originalPhotoSrc s) (currentGeneratedSources s) (history s)
    (historyEmptyMsg s) (beforeImage_src s) (afterImage_src s) (afterImage_clipPath s)
    (comparisonHandle_left s) (comparisonSlider_value s)
    (comparisonContainer_loading s) (variantsContainer s) (historyContainer s)
    (downloadButton_display s) (outputContainer_display s) v (buttonText s)
    (spinner_display s).

Definition set_buttonText (v : string) (s : State) : State :=
  mkState (originalPhotoSrc s) (currentGeneratedSources s) (history s)
    (historyEmptyMsg s) (beforeImage_src s) (afterImage_src s) (afterImage_clipPath s)
    (comparisonHandle_left s) (comparisonSlider_value s)
    (comparisonContainer_loading s) (variantsContainer s) (historyContainer s)
    (downloadButton_display s) (outputContainer_display s) (generateButton_disabled s)
    v (spinner_display s).

Definition set_spinner_display (v : string) (s : State) : State :=
  mkState (originalPhotoSrc s) (currentGeneratedSources s) (history s)
    (historyEmptyMsg s) (beforeImage_src s) (afterImage_src s) (afterImage_clipPath s)
    (comparisonHandle_left s) (comparisonSlider_value s)
    (comparisonContainer_loading s) (variantsContainer s) (historyContainer s)
    (downloadButton_display s) (outputContainer_display s) (generateButton_disabled s)
    (buttonText s) v.


(** What [fileToGenerativePart] resolves to in these builds. *)
Record GenerativePart := {
  gp_mimeType : string;
  gp_data : option string;
  gp_url : string
}.

(** The same object, as the [inlineData] of a request. *)
Definition asInlineData (p : GenerativePart) : InlineData :=
  {| id_mimeType := gp_mimeType p; id_data := gp_data p; id_url := Some (gp_url p) |}.

Definition fileToGenerativePart (file : File) : Eff State GenerativePart :=
  match file_dataURL file with
  | Some result =>
      let base64Data := JS.index (JS.split "," result) 1 in
      ret {| gp_mimeType := file_type file; gp_data := base64Data; gp_url := result |}
  | None => throw
  end.

Definition isUploaded (files : option (list File)) : bool :=
  match files with
  | Some (_ :: _) => true
  | _ => false
  end.

Definition checkFormValidity (i : Inputs) (s : State) : State :=
  let isProductUploaded := isUploaded (productUpload_files i) in
  let isPhotoUploaded := isUploaded (photoUpload_files i) in
  set_generateButton_disabled (negb (isProductUploaded && isPhotoUploaded)) s.

Definition setLoadingState (isLoading : bool) (i : Inputs) (s : State) : State :=
  let s := set_generateButton_disabled isLoading s in
  let s := set_buttonText (if isLoading then "Generating..." else "Generate") s in
  let s := set_spinner_display (if isLoading then "block" else "none") s in
  if negb isLoading then checkFormValidity i s else s.

Definition showLoadingPlaceholders (s : State) : State :=
  let s := set_outputContainer_display "block" s in
  let s := set_downloadButton_display "none" s in
  let s := set_comparisonContainer_loading true s in
  set_variantsContainer [Placeholder; Placeholder; Placeholder] s.

Definition hideLoadingPlaceholders (s : State) : State :=
  set_comparisonContainer_loading false s.

(** [thumb.classList.toggle('active', i === index)] over the thumbnails of
    the container, [i] counting the thumbnails only. *)
Fixpoint toggleActive (index i : nat) (children : list VariantChild) : list VariantChild :=
  match children with
  | [] => []
  | Placeholder :: rest => Placeholder :: toggleActive index i rest
  | Thumbnail src captured _ :: rest =>
      Thumbnail src captured (Nat.eqb i index) :: toggleActive index (S i) rest
  end.

Definition updateMainImage (src : string) (index : nat) (s : State) : State :=
  let s := set_afterImage_src src s in
  set_variantsContainer (toggleActive index 0 (variantsContainer s)) s.

Fixpoint thumbnailsFrom (index : nat) (sources : list string) : list VariantChild :=
  match sources with
  | [] => []
  | src :: rest => Thumbnail src index (Nat.eqb index 0) :: thumbnailsFrom (S index) rest
  end.

Definition createThumbnails (sources : list string) (s : State) : State :=
  set_variantsContainer (thumbnailsFrom 0 sources) s.

(** The [input] listener of the comparison slider, for the whole-number
    values of the slider between 0 and 100. *)
Definition comparisonSlider_onInput (s : State) : State :=
  let value := comparisonSlider_value s in
  let s := set_afterImage_clipPath
             ("inset(0 " ++ JS.showNat (100 - value) ++ "% 0 0)") s in
  set_comparisonHandle_left (JS.showNat value ++ "%") s.

Definition showResult (result : HistoryItem) (s : State) : State :=
  let s := set_beforeImage_src (original result) s in
  let s := set_currentGeneratedSources (variants result) s in
  let s := updateMainImage (JS.or_else (JS.index (currentGeneratedSources s) 0) "") 0 s in
  let s := createThumbnails (currentGeneratedSources s) s in
  let s := set_comparisonSlider_value 50 s in
  let s := comparisonSlider_onInput s in
  let s := set_downloadButton_display "flex" s in
  set_outputContainer_display "block" s.

Fixpoint historyImgsFrom (index : nat) (items : list HistoryItem) : list HistoryChild :=
  match items with
  | [] => []
  | item :: rest =>
      HistoryImg (JS.index (variants item) 0) index item :: historyImgsFrom (S index) rest
  end.

Definition renderHistory (s : State) : State :=
  match history s with
  | [] => set_historyContainer (if historyEmptyMsg s then [HistoryEmpty] else []) s
  | _ :: _ => set_historyContainer (historyImgsFrom 0 (history s)) s
  end.

(** The click listener of the [n]-th child of the history container: an
    image shows the item it captured, the empty-state message has none. *)
Definition historyItemClick (n : nat) (s : State) : State :=
  match JS.index (historyContainer s) n with
  | Some (HistoryImg _ _ item) => showResult item s
  | _ => s
  end.

(** The click listener of the [n]-th child of the variants container. *)
Definition thumbnailClick (n : nat) (s : State) : State :=
  match JS.index (variantsContainer s) n with
  | Some (Thumbnail src index _) => updateMainImage src index s
  | _ => s
  end.

(** [history.unshift(newResult); if (history.length > 5) history.pop();
    renderHistory();] *)
Definition updateHistory (newResult : HistoryItem) (s : State) : State :=
  let s := set_history (JS.unshift newResult (history s)) s in
  let s := if Nat.ltb 5 (List.length (history s)) then set_history (JS.pop (history s)) s else s in
  renderHistory s.

Definition missingInputMessage : string :=
  "Please provide both product and scene photos.".
Definition noImagePrefix : string :=
  "Could not generate an image. Model response: ".
Definition serviceFailureMessage : string :=
  "An error occurred. Please check the console for details.".

(** The click listener of the generate button; [prompt] is the template
    literal of the build, read from the sliders at the time of the click.
    The listener is run to its end in one piece: the page has one thread and
    disables the button for the time of the request, and no other listener is
    taken to run at its three [await]s. *)
Definition generateClick (prompt : Inputs -> string) (service : Service) (i : Inputs)
  : Eff State unit :=
  match inputsReady i with
  | None => emit (Alert missingInputMessage)
  | Some (productFile, photoFile) =>
      (modify (setLoadingState true i) ;;;
       modify showLoadingPlaceholders ;;;
       tryCatchFinally
         (productPart <- fileToGenerativePart productFile ;;
          photoPart <- fileToGenerativePart photoFile ;;
          modify (set_originalPhotoSrc (gp_url photoPart)) ;;;
          response <- generateContent service
                        (buildRequest (asInlineData productPart) (asInlineData photoPart)
                           (prompt i)) ;;
          modify hideLoadingPlaceholders ;;;
          match extract response with
          | Images generatedSources =>
              match generatedSources with
              | _ :: _ =>
                  s <- get ;;
                  let newResult :=
                    {| original := originalPhotoSrc s; variants := generatedSources |} in
                  modify (showResult newResult) ;;;
                  modify (updateHistory newResult)
              | [] => ret tt
              end
          | NoImageReturned explanation =>
              emit (Alert (noImagePrefix ++ explanation)%string) ;;;
              modify (set_outputContainer_display "none")
          | ExtractTypeError => throw
          end)
         (emit (ConsoleError "Error generating image:") ;;;
          emit (Alert serviceFailureMessage) ;;;
          modify (set_outputContainer_display "none"))
         (modify (setLoadingState false i) ;;;
          modify hideLoadingPlaceholders))%eff
  end.

(** The page as the script leaves it once loaded: the three variables
    empty, the button set from the inputs, and [renderHistory()] run for the
    empty state.  What the markup gives the elements is a parameter. *)
Definition initialState (i : Inputs) (markup : State) : State :=
  let s := set_originalPhotoSrc "" markup in
  let s := set_currentGeneratedSources [] s in
  let s := set_history [] s in
  renderHistory (checkFormValidity i s).

End HistoryBuild.

(** ** The prompts

    Each prompt is the template literal of its build, line by line; the
    values substituted are the [value] strings of the sliders and of the
    placement select.  Strings are sequences of bytes, the typographic
    apostrophe of two templates being its three UTF-8 bytes. *)

Definition joinLines (lines : list string) : string :=
  String.concat JS.nl lines.

Module TryOn.

(** The try-on build has a scale slider only: no shadow slider and no
    placement select exist in it. *)
Definition prompt (i : Inputs) : string :=
  joinLines
    [ "Task: Virtual Try-On.";
      "";
      "Base image: The second image provided (the user's photo).";
      "Product image: The first image provided (the clothing item).";
      "";
      "Instructions:";
      "1. Identify the main person in the base image.";
      "2. Replace the clothing worn by the person (e.g., dress, shirt, top) with the clothing from the product image.";
      ("3. The new clothing should be scaled to approximately " ++ scaleSlider_value i
        ++ "% of the person's torso height to ensure a good fit.")%string;
      "4. Realistically adapt the product to the person's body shape, posture, and pose.";
      "5. Match the lighting, shadows, and color temperature of the base image to create a seamless, photorealistic result.";
      "6. Do not modify the person's face, body, or the background. Only change the clothing.";
      "7. Generate 3 variants with slight variations in fit and drape." ].

Definition generateClick : Service -> Inputs -> Eff HistoryBuild.State unit :=
  HistoryBuild.generateClick prompt.

End TryOn.

Module Composite.

Definition prompt (i : Inputs) : string :=
  joinLines
    [ "Base image: The second image provided (the photo). Overlay image: The first image provided (the product).";
      "";
      ("Task: Insert the product from the overlay image into the base image at the "
        ++ placementSelect_value i ++ " area.")%string;
      ("Scale the product to about " ++ scaleSlider_value i ++ "% of the photo's width.")%string;
      "Match the scene’s lighting, color temperature, and perspective.";
      ("Add realistic shadows with an intensity of about " ++ shadowSlider_value i
        ++ " (where 0.0 is none and 1.0 is dark).")%string;
      "Do not modify the person’s face or the background.";
      "Output a natural-looking, high-resolution composite suitable for a premium ecommerce preview.";
      "Generate 3 variants with slight rotation differences." ].

Definition generateClick : Service -> Inputs -> Eff HistoryBuild.State unit :=
  HistoryBuild.generateClick prompt.

End Composite.

(** ** The plain build of [index.tsx]: no result store, no history *)

Module Basic.

Record Img := { img_src : string; img_alt : string }.

Record State := mkState {
  outputGrid : list Img;
  outputContainer_display : string;
  generateButton_disabled : bool;
  buttonText : string;
  spinner_display : string
}.

Definition set_outputGrid (v : list Img) (s : State) : State :=
  mkState v (outputContainer_display s) (generateButton_disabled s) (buttonText s)
    (spinner_display s).
Definition set_outputContainer_display (v : string) (s : State) : State :=
  mkState (outputGrid s) v (generateButton_disabled s) (buttonText s) (spinner_display s).
Definition set_generateButton_disabled (v : bool) (s : State) : State :=
  mkState (outputGrid s) (outputContainer_display s) v (buttonText s) (spinner_display s).
Definition set_buttonText (v : string) (s : State) : State :=
  mkState (outputGrid s) (outputContainer_display s) (generateButton_disabled s) v
    (spinner_display s).
Definition set_spinner_display (v : string) (s : State) : State :=
  mkState (outputGrid s) (outputContainer_display s) (generateButton_disabled s)
    (buttonText s) v.

Definition prompt (i : Inputs) : string :=
  let scale := scaleSlider_value i in
  let placement := placementSelect_value i in
  let shadow := shadowSlider_value i in
  joinLines
    [ "Base image: The second image provided (the photo). Overlay image: The first image provided (the product).";
      "";
      ("Task: Insert the product from the overlay image into the base image at the "
        ++ placement ++ " area.")%string;
      ("Scale the product to about " ++ scale ++ "% of the photo's width.")%string;
      "Match the scene’s lighting, color temperature, and perspective.";
      ("Add realistic shadows with an intensity of about " ++ shadow ++ "%.")%string;
      "Do not modify the person’s face or the background.";
      "Output a natural-looking, high-resolution composite suitable for a premium ecommerce preview.";
      "Generate 3 variants with slight rotation differences." ].

(** [fileToGenerativePart]: a result of the reader that is not a string
    rejects, as a reader error does. *)
Definition fileToGenerativePart (file : File) : Eff State InlineData :=
  match file_dataURL file with
  | Some result =>
      let base64Data := JS.index (JS.split "," result) 1 in
      ret {| id_mimeType := file_type file; id_data := base64Data; id_url := None |}
  | None => throw
  end.

Definition checkFormValidity (i : Inputs) (s : State) : State :=
  let isProductUploaded := HistoryBuild.isUploaded (productUpload_files i) in
  let isPhotoUploaded := HistoryBuild.isUploaded (photoUpload_files i) in
  set_generateButton_disabled (negb (isProductUploaded && isPhotoUploaded)) s.

Definition setLoadingState (isLoading : bool) (i : Inputs) (s : State) : State :=
  let s := set_generateButton_disabled isLoading s in
  if isLoading then
    let s := set_buttonText "Generating..." s in
    set_spinner_display "block" s
  else
    let s := set_buttonText "Generate Try-On" s in
    let s := set_spinner_display "none" s in
    checkFormValidity i s.

(** [imageParts.forEach(part => { if (part.inlineData) { ... appendChild(img) } })] *)
Fixpoint appendImages (ps : list Part) (grid : list Img) : list Img :=
  match ps with
  | [] => grid
  | part :: rest =>
      match inlineData part with
      | Some b =>
          appendImages rest
            (grid ++ [{| img_src := dataURL b; img_alt := "Generated try-on variant" |}])
      | None => appendImages rest grid
      end
  end.

Definition missingInputMessage : string :=
  "Please upload both a product and a photo, and ensure the API key is set.".
Definition serviceFailureMessage : string :=
  "An error occurred while generating the image. Please check the console for details.".

Definition generateClick (service : Service) (i : Inputs) : Eff State unit :=
  match inputsReady i with
  | None => emit (Alert missingInputMessage)
  | Some (productFile, photoFile) =>
      (modify (setLoadingState true i) ;;;
       modify (set_outputGrid []) ;;;
       modify (set_outputContainer_display "none") ;;;
       tryCatchFinally
         (productPart <- fileToGenerativePart productFile ;;
          photoPart <- fileToGenerativePart photoFile ;;
          response <- generateContent service (buildRequest productPart photoPart (prompt i)) ;;
          match imageParts response with
          | Some ((_ :: _) as ps) =>
              modify (fun s => set_outputGrid (appendImages ps (outputGrid s)) s) ;;;
              modify (set_outputContainer_display "block")
          | _ =>
              let textResponse := text response in
              emit (Alert (HistoryBuild.noImagePrefix
                             ++ JS.or_else textResponse "No text response.")%string)
          end)
         (emit (ConsoleError "Error generating image:") ;;;
          emit (Alert serviceFailureMessage))
         (modify (setLoadingState false i)))%eff
  end.

End Basic.

(** ** Notions the properties are stated with *)

(** The parts of the first candidate's content, none when a link of the
    chain [candidates?.[0]?.content?.parts] is absent. *)
Definition firstCandidateParts (response : Response) : list Part :=
  match candidates response with
  | Some (candidate :: _) =>
      match content candidate with
      | Some c =>
          match parts c with
          | Some ps => ps
          | None => []
          end
      | None => []
      end
  | _ => []
  end.

(** The inline image payloads among some parts, in part order. *)
Fixpoint inlineBlobs (ps : list Part) : list Blob :=
  match ps with
  | [] => []
  | p :: rest =>
      match inlineData p with
      | Some b => b :: inlineBlobs rest
      | None => inlineBlobs rest
      end
  end.

(** K: how many parts of the first candidate carry inline image data. *)
Definition imageCount (response : Response) : nat :=
  List.length (inlineBlobs (firstCandidateParts response)).

(** The explanation of the failure case read word for word: the text of the
    response, the fallback when there is no text. *)
Definition explanationWhenAbsent (response : Response) : string :=
  match text response with
  | Some t => t
  | None => "No text response."
  end.

(** The three error kinds, read off the events of a click: the guard's
    alert alone; a dispatch followed by the catch block; a dispatch followed
    by the alert of the empty extraction. *)
Inductive ErrorKind := MissingInput | ServiceFailure | NoImage.

Definition errorKindOf (events : list Event) : option ErrorKind :=
  match events with
  | [Alert _] => Some MissingInput
  | [GenerateContent _; ConsoleError _; Alert _] => Some ServiceFailure
  | [GenerateContent _; Alert _] => Some NoImage
  | _ => None
  end.

(** The shape of a dispatched request: the product image, the scene image
    and the prompt, in this order, and the two response modalities. *)
Definition partOf (withUrl : bool) (file : File) (result : string) : InlineData :=
  {| id_mimeType := file_type file;
     id_data := nth_error (JS.split "," result) 1;
     id_url := if withUrl then Some result else None |}.

Definition requestShape (withUrl : bool) (i : Inputs) (promptText : string) (req : Request)
  : Prop :=
  exists productFile photoFile productURL photoURL,
    JS.first (productUpload_files i) = Some productFile /\
    JS.first (photoUpload_files i) = Some photoFile /\
    file_dataURL productFile = Some productURL /\
    file_dataURL photoFile = Some photoURL /\
    req_parts req =
      [ReqInlineData (partOf withUrl productFile productURL);
       ReqInlineData (partOf withUrl photoFile photoURL);
       ReqText promptText] /\
    req_responseModalities req = [IMAGE; TEXT].

(** Recording results one after the other, first of the list first. *)
Fixpoint recordAll (rs : list HistoryItem) (s : HistoryBuild.State) : HistoryBuild.State :=
  match rs with
  | [] => s
  | r :: rest => recordAll rest (HistoryBuild.updateHistory r s)
  end.

(** A session of a build with a history: the user's intents, in order. *)
Inductive Intent :=
| Generate (service : Service) (i : Inputs)
| SelectHistoryItem (n : nat)
| SelectVariant (n : nat).

Definition perform (prompt : Inputs -> string) (s : HistoryBuild.State) (a : Intent)
  : HistoryBuild.State :=
  match a with
  | Generate service i => stateOf (HistoryBuild.generateClick prompt service i s)
  | SelectHistoryItem n => HistoryBuild.historyItemClick n s
  | SelectVariant n => HistoryBuild.thumbnailClick n s
  end.

Definition session (prompt : Inputs -> string) (intents : list Intent) (s : HistoryBuild.State)
  : HistoryBuild.State :=
  fold_left (perform prompt) intents s.

(** What a build with a history keeps of its results: the history and its
    rendering, the sources of the result on display, and the two images of
    the comparison. *)
Definition stored (s : HistoryBuild.State)
  : list HistoryItem * list HistoryBuild.HistoryChild * list string * string * string :=
  (HistoryBuild.history s, HistoryBuild.historyContainer s,
   HistoryBuild.currentGeneratedSources s, HistoryBuild.beforeImage_src s,
   HistoryBuild.afterImage_src s).

(** The functions of the page that leave all of it alone, and those that
    leave the variable [originalPhotoSrc] alone. *)
Class KeepsStored (f : HistoryBuild.State -> HistoryBuild.State) : Prop :=
  keeps_stored : forall s, stored (f s) = stored s.

Class KeepsOriginalPhotoSrc (f : HistoryBuild.State -> HistoryBuild.State) : Prop :=
  keeps_originalPhotoSrc :
    forall s, HistoryBuild.originalPhotoSrc (f s) = HistoryBuild.originalPhotoSrc s.

(** The inputs of the scenario "scale 40, shadow 0.6". *)
Definition scenarioInputs (placement : string) : Inputs :=
  {| productUpload_files := None;
     photoUpload_files := None;
     API_KEY := None;
     scaleSlider_value := "40";
     shadowSlider_value := "0.6";
     placementSelect_value := placement |}.

(** ** Concrete data for the examples *)
Definition pngFile (name payload : string) : File :=
  {| file_name := name;
     file_type := "image/png";
     file_dataURL := Some ("data:image/png;base64," ++ payload)%string |}.

Definition readyInputs : Inputs :=
  {| productUpload_files := Some [pngFile "shirt.png" "UFJPRA=="];
     photoUpload_files := Some [pngFile "me.png" "UEhPVE8="];
     API_KEY := Some "key";
     scaleSlider_value := "40";
     shadowSlider_value := "0.6";
     placementSelect_value := "center" |}.

Definition imagePart (payload : string) : Part :=
  {| inlineData := Some {| mimeType := "image/png"; data := payload |}; part_text := None |}.
Definition textPart (t : string) : Part :=
  {| inlineData := None; part_text := Some t |}.

Definition responseOf (ps : list Part) (t : option string) : Response :=
  {| candidates := Some [ {| content := Some {| parts := Some ps |} |} ]; text := t |}.

Definition blankPage : HistoryBuild.State :=
  HistoryBuild.mkState "" [] [] true "" "" "" "" 50 false [] [] "none" "none" true
    "Generate" "none".

Definition item (o : string) (vs : list string) : HistoryItem :=
  {| original := o; variants := vs |}.

(** A second photo, a service that answers with two images, one that fails. *)
Definition otherInputs : Inputs :=
  {| productUpload_files := Some [pngFile "shirt.png" "UFJPRA=="];
     photoUpload_files := Some [pngFile "you.png" "T1RIRVI="];
     API_KEY := Some "key";
     scaleSlider_value := "15";
     shadowSlider_value := "0.3";
     placementSelect_value := "center" |}.

Definition twoImages : Service :=
  fun _ => Some (responseOf [imagePart "AAAA"; textPart "Here you are."; imagePart "BBBB"]
                   (Some "Here you are.")).

Definition textOnly : Service :=
  fun _ => Some (responseOf [textPart "I cannot do that."] (Some "I cannot do that.")).

Definition failing : Service := fun _ => None.

(** ** The theme switcher (all three builds) *)

Module Theme.

(** Whether [body] carries the class [dark-mode], and the entry [theme] of
    the local storage, [None] when [getItem] returns [null]. *)
Record State := { darkMode : bool; storedTheme : option string }.

Definition applyTheme (theme : string) (s : State) : State :=
  if String.eqb theme "dark"
  then {| darkMode := true; storedTheme := storedTheme s |}
  else {| darkMode := false; storedTheme := storedTheme s |}.

(** The click listener of the theme toggle. *)
Definition themeToggleClick (s : State) : State :=
  let newTheme := if darkMode s then "light" else "dark" in
  let s := {| darkMode := darkMode s; storedTheme := Some newTheme |} in
  applyTheme newTheme s.

(** The initial setup; [prefersDark] is what the media query
    [(prefers-color-scheme: dark)] answers. *)
Definition initialSetup (prefersDark : bool) (s : State) : State :=
  let preferredTheme :=
    JS.or_else (storedTheme s) (if prefersDark then "dark" else "light") in
  applyTheme preferredTheme s.

(** A page load: the class of [body] is what the markup gives it, the local
    storage is what the last visit left. *)
Definition reload (markupDark prefersDark : bool) (s : State) : State :=
  initialSetup prefersDark {| darkMode := markupDark; storedTheme := storedTheme s |}.

End Theme.

(** ** The download button (builds with a history) *)

(** The link the click listener of the download button builds, clicks and
    removes again.  Its [href] is what reading the property [afterImage.src]
    gives: not the source as it was written, but the URL the browser
    resolves it to against the page, [resolveURL] here. *)
Record DownloadLink := { link_href : string; link_download : string }.

Definition downloadClick (resolveURL : string -> string) (s : HistoryBuild.State)
  : DownloadLink :=
  {| link_href := resolveURL (HistoryBuild.afterImage_src s);
     link_download := "trylens-ai-result.png" |}.

(** The thumbnails of some sources, the one at [activeIndex] active; [index]
    is the index of the first. *)
Fixpoint thumbnails (activeIndex index : nat) (sources : list string)
  : list HistoryBuild.VariantChild :=
  match sources with
  | [] => []
  | src :: rest =>
      HistoryBuild.Thumbnail src index (Nat.eqb index activeIndex)
      :: thumbnails activeIndex (S index) rest
  end.

(** ** The upload form and the camera (builds with a history) *)

Module Camera.

(** The upload input a take-photo button names in its [data-target]. *)
Inductive Target := ProductUpload | PhotoUpload.

(** A track of a media stream: [stop()] ends it. *)
Record Track := { track_kind : string; track_live : bool }.
Definition MediaStream := list Track.

(** What the canvas encodes to: the data URL a reader will later find in the
    file built from it, [None] when that read fails. *)
Record CanvasBlob := { blob_dataURL : option string }.

(** The form and the camera dialog.  [page] holds the generate button;
    a label is [None] when the page has no such element; [media] holds the
    streams [getUserMedia] has handed out, [stream] and the [srcObject] of
    the video refer to them by position; [cameraCanvas] is what [toBlob]
    will deliver, [None] when it delivers [null]. *)
Record State := mkState {
  inputs : Inputs;
  page : HistoryBuild.State;
  productLabel : option string;
  photoLabel : option string;
  originalProductLabel : string;
  originalPhotoLabel : string;
  activeCameraTarget : option Target;
  stream : option nat;
  media : list MediaStream;
  cameraVideo_srcObject : option nat;
  cameraModal_display : string;
  cameraConfirm_disabled : bool;
  cameraConfirmText : option string;
  cameraConfirmSpinner : option string;
  cameraCanvas : option CanvasBlob
}.

Definition set_inputs (v : Inputs) (s : State) : State :=
  mkState v (page s) (productLabel s) (photoLabel s) (originalProductLabel s)
    (originalPhotoLabel s) (activeCameraTarget s) (stream s) (media s)
    (cameraVideo_srcObject s) (cameraModal_display s) (cameraConfirm_disabled s)
    (cameraConfirmText s) (cameraConfirmSpinner s) (cameraCanvas s).

Definition set_page (v : HistoryBuild.State) (s : State) : State :=
  mkState (inputs s) v (productLabel s) (photoLabel s) (originalProductLabel s)
    (originalPhotoLabel s) (activeCameraTarget s) (stream s) (media s)
    (cameraVideo_srcObject s) (cameraModal_display s) (cameraConfirm_disabled s)
    (cameraConfirmText s) (cameraConfirmSpinner s) (cameraCanvas s).

Definition set_productLabel (v : option string) (s : State) : State :=
  mkState (inputs s) (page s) v (photoLabel s) (originalProductLabel s)
    (originalPhotoLabel s) (activeCameraTarget s) (stream s) (media s)
    (cameraVideo_srcObject s) (cameraModal_display s) (cameraConfirm_disabled s)
    (cameraConfirmText s) (cameraConfirmSpinner s) (cameraCanvas s).

Definition set_photoLabel (v : option string) (s : State) : State :=
  mkState (inputs s) (page s) (productLabel s) v (originalProductLabel s)
    (originalPhotoLabel s) (activeCameraTarget s) (stream s) (media s)
    (cameraVideo_srcObject s) (cameraModal_display s) (cameraConfirm_disabled s)
    (cameraConfirmText s) (cameraConfirmSpinner s) (cameraCanvas s).

Definition set_activeCameraTarget (v : option Target) (s : State) : State :=
  mkState (inputs s) (page s) (productLabel s) (photoLabel s) (originalProductLabel s)
    (originalPhotoLabel s) v (stream s) (media s) (cameraVideo_srcObject s)
    (cameraModal_display s) (cameraConfirm_disabled s) (cameraConfirmText s)
    (cameraConfirmSpinner s) (cameraCanvas s).

Definition set_stream (v : option nat) (s : State) : State :=
  mkState (inputs s) (page s) (productLabel s) (photoLabel s) (originalProductLabel s)
    (originalPhotoLabel s) (activeCameraTarget s) v (media s)
    (cameraVideo_srcObject s) (cameraModal_display s) (cameraConfirm_disabled s)
    (cameraConfirmText s) (cameraConfirmSpinner s) (cameraCanvas s).

Definition set_media (v : list MediaStream) (s : State) : State :=
  mkState (inputs s) (page s) (productLabel s) (photoLabel s) (originalProductLabel s)
    (originalPhotoLabel s) (activeCameraTarget s) (stream s) v
    (cameraVideo_srcObject s) (cameraModal_display s) (cameraConfirm_disabled s)
    (cameraConfirmText s) (cameraConfirmSpinner s) (cameraCanvas s).

Definition set_cameraVideo_srcObject (v : option nat) (s : State) : State :=
  mkState (inputs s) (page s) (productLabel s) (photoLabel s) (originalProductLabel s)
    (originalPhotoLabel s) (activeCameraTarget s) (stream s) (media s) v
    (cameraModal_display s) (cameraConfirm_disabled s) (cameraConfirmText s)
    (cameraConfirmSpinner s) (cameraCanvas s).

Definition set_cameraModal_display (v : string) (s : State) : State :=
  mkState (inputs s) (page s) (productLabel s) (photoLabel s) (originalProductLabel s)
    (originalPhotoLabel s) (activeCameraTarget s) (stream s) (media s)
    (cameraVideo_srcObject s) v (cameraConfirm_disabled s) (cameraConfirmText s)
    (cameraConfirmSpinner s) (cameraCanvas s).

Definition set_cameraConfirm_disabled (v : bool) (s : State) : State :=
  mkState (inputs s) (page s) (productLabel s) (photoLabel s) (originalProductLabel s)
    (originalPhotoLabel s) (activeCameraTarget s) (stream s) (media s)
    (cameraVideo_srcObject s) (cameraModal_display s) v (cameraConfirmText s)
    (cameraConfirmSpinner s) (cameraCanvas s).

Definition set_cameraConfirmText (v : option string) (s : State) : State :=
  mkState (inputs s) (page s) (productLabel s) (photoLabel s) (originalProductLabel s)
    (originalPhotoLabel s) (activeCameraTarget s) (stream s) (media s)
    (cameraVideo_srcObject s) (cameraModal_display s) (cameraConfirm_disabled s) v
    (cameraConfirmSpinner s) (cameraCanvas s).

Definition set_cameraConfirmSpinner (v : option string) (s : State) : State :=
  mkState (inputs s) (page s) (productLabel s) (photoLabel s) (originalProductLabel s)
    (originalPhotoLabel s) (activeCameraTarget s) (stream s) (media s)
    (cameraVideo_srcObject s) (cameraModal_display s) (cameraConfirm_disabled s)
    (cameraConfirmText s) v (cameraCanvas s).

Definition set_cameraCanvas (v : option CanvasBlob) (s : State) : State :=
  mkState (inputs s) (page s) (productLabel s) (photoLabel s) (originalProductLabel s)
    (originalPhotoLabel s) (activeCameraTarget s) (stream s) (media s)
    (cameraVideo_srcObject s) (cameraModal_display s) (cameraConfirm_disabled s)
    (cameraConfirmText s) (cameraConfirmSpinner s) v.

Definition inputFiles (t : Target) (i : Inputs) : option (list File) :=
  match t with
  | ProductUpload => productUpload_files i
  | PhotoUpload => photoUpload_files i
  end.

(** [input.files = files] *)
Definition setInputFiles (t : Target) (files : option (list File)) (i : Inputs) : Inputs :=
  match t with
  | ProductUpload =>
      {| productUpload_files := files;
         photoUpload_files := photoUpload_files i;
         API_KEY := API_KEY i;
         scaleSlider_value := scaleSlider_value i;
         shadowSlider_value := shadowSlider_value i;
         placementSelect_value := placementSelect_value i |}
  | PhotoUpload =>
      {| productUpload_files := productUpload_files i;
         photoUpload_files := files;
         API_KEY := API_KEY i;
         scaleSlider_value := scaleSlider_value i;
         shadowSlider_value := shadowSlider_value i;
         placementSelect_value := placementSelect_value i |}
  end.

Definition labelOf (t : Target) (s : State) : option string :=
  match t with
  | ProductUpload => productLabel s
  | PhotoUpload => photoLabel s
  end.

Definition set_labelOf (t : Target) (v : option string) (s : State) : State :=
  match t with
  | ProductUpload => set_productLabel v s
  | PhotoUpload => set_photoLabel v s
  end.

Definition originalLabelOf (t : Target) (s : State) : string :=
  match t with
  | ProductUpload => originalProductLabel s
  | PhotoUpload => originalPhotoLabel s
  end.

Definition checkFormValidity (s : State) : State :=
  set_page (HistoryBuild.checkFormValidity (inputs s) (page s)) s.

(** [handleFileChange(input, label, originalText)], the listener of the
    [change] event of the upload input [t]. *)
Definition handleFileChange (t : Target) (s : State) : State :=
  match labelOf t s with
  | None => s
  | Some _ =>
      let s :=
        match inputFiles t (inputs s) with
        | Some (file :: _) => set_labelOf t (Some (file_name file)) s
        | _ => set_labelOf t (Some (originalLabelOf t s)) s
        end in
      checkFormValidity s
  end.

(** The user picks files in the upload input [t]: the platform sets
    [input.files] and fires [change]. *)
Definition filesPicked (t : Target) (files : list File) (s : State) : State :=
  handleFileChange t (set_inputs (setInputFiles t (Some files) (inputs s)) s).

Definition setCameraConfirmLoadingState (isLoading : bool) (s : State) : State :=
  match cameraConfirmText s, cameraConfirmSpinner s with
  | Some _, Some _ =>
      let s := set_cameraConfirm_disabled isLoading s in
      let s := set_cameraConfirmText (Some (if isLoading then "Saving..." else "Use Photo")) s in
      set_cameraConfirmSpinner (Some (if isLoading then "block" else "none")) s
  | _, _ => s
  end.

Definition missingCameraMessage : string :=
  "Could not access the camera. Please ensure you have given permission.".

(** [openCamera(targetInput)]; [getUserMedia] is what the platform answers:
    a new stream, or [None] when the promise rejects.  [targetInput] is
    [None] when [getElementById] finds no element. *)
Definition openCamera (getUserMedia : option MediaStream) (targetInput : option Target)
  : Eff State unit :=
  (modify (set_activeCameraTarget targetInput) ;;;
   tryCatchFinally
     (match getUserMedia with
      | Some tracks =>
          modify (fun s =>
                    let id := List.length (media s) in
                    let s := set_media (media s ++ [tracks]) s in
                    let s := set_stream (Some id) s in
                    let s := set_cameraVideo_srcObject (stream s) s in
                    let s := set_cameraModal_display "flex" s in
                    set_cameraConfirm_disabled true s)
      | None => throw
      end)
     (emit (ConsoleError "Error accessing camera:") ;;;
      emit (Alert missingCameraMessage))
     (ret tt))%eff.

Definition stopTrack (t : Track) : Track :=
  {| track_kind := track_kind t; track_live := false |}.

(** [stream.getTracks().forEach(track => track.stop())] on the stream at
    position [id]. *)
Fixpoint stopTracksOf (id : nat) (streams : list MediaStream) : list MediaStream :=
  match streams, id with
  | [], _ => []
  | tracks :: rest, O => map stopTrack tracks :: rest
  | tracks :: rest, S id' => tracks :: stopTracksOf id' rest
  end.

Definition closeCamera (s : State) : State :=
  let s :=
    match stream s with
    | Some id => set_media (stopTracksOf id (media s)) s
    | None => s
    end in
  let s := set_cameraModal_display "none" s in
  set_activeCameraTarget None s.

(** The click listener of the capture button; [frame] is what the canvas
    holds once the frame of the video is drawn on it. *)
Definition cameraCaptureClick (frame : option CanvasBlob) (s : State) : State :=
  let s := set_cameraCanvas frame s in
  set_cameraConfirm_disabled false s.

Definition captureFile (blob : CanvasBlob) : File :=
  {| file_name := "capture.jpg";
     file_type := "image/jpeg";
     file_dataURL := blob_dataURL blob |}.

(** The click listener of the confirm button, with the callback of
    [toBlob] run right after it. *)
Definition cameraConfirmClick (s : State) : State :=
  match activeCameraTarget s with
  | None => s
  | Some target =>
      let s := setCameraConfirmLoadingState true s in
      let s :=
        match cameraCanvas s with
        | Some blob =>
            let file := captureFile blob in
            let s := set_inputs (setInputFiles target (Some [file]) (inputs s)) s in
            handleFileChange target s
        | None => s
        end in
      let s := setCameraConfirmLoadingState false s in
      closeCamera s
  end.

(** The tracks still live over all the streams handed out. *)
Definition liveTracks (s : State) : nat :=
  List.length (filter track_live (List.concat (media s))).

End Camera.

(** ** Consistency of a page with a history

    The history container shows the history, every entry of the history has
    a variant, and the result on display, if there is one, is an entry of
    the history. *)
Definition consistent (s : HistoryBuild.State) : Prop :=
  HistoryBuild.historyContainer s = HistoryBuild.historyContainer (HistoryBuild.renderHistory s)
  /\ Forall (fun entry => variants entry <> []) (HistoryBuild.history s)
  /\ (HistoryBuild.currentGeneratedSources s = []
      \/ In {| original := HistoryBuild.beforeImage_src s;
               variants := HistoryBuild.currentGeneratedSources s |}
            (HistoryBuild.history s)).

(** The functions of the page that leave the empty-state message of the
    history where it is. *)
Class KeepsEmptyMsg (f : HistoryBuild.State -> HistoryBuild.State) : Prop :=
  keeps_emptyMsg :
    forall s, HistoryBuild.historyEmptyMsg (f s) = HistoryBuild.historyEmptyMsg s.

(** ** Response extraction *)

Section Extraction.

Lemma generatedSourcesOf_filter (ps : list Part) :
  generatedSourcesOf (filter hasInlineData ps) = Some (map dataURL (inlineBlobs ps)).
Proof.
  induction ps as [|p ps IH]; simpl; [reflexivity|].
  unfold hasInlineData at 1.
  destruct (inlineData p) as [b|] eqn:Hp; simpl.
  - rewrite Hp, IH. reflexivity.
  - exact IH.
Qed.

Lemma filter_inlineBlobs_nil (ps : list Part) :
  filter hasInlineData ps = [] <-> inlineBlobs ps = [].
Proof.
  induction ps as [|p ps IH]; simpl; [tauto|].
  unfold hasInlineData at 1.
  destruct (inlineData p); simpl; [split; discriminate | exact IH].
Qed.

Lemma imageParts_firstCandidateParts (response : Response) :
  match imageParts response with
  | Some ps => ps = filter hasInlineData (firstCandidateParts response)
  | None => firstCandidateParts response = []
  end.
Proof.
  unfold imageParts, firstCandidateParts, JS.first.
  destruct (candidates response) as [[|c cs]|]; try reflexivity.
  destruct (content c) as [ct|]; try reflexivity.
  destruct (parts ct); reflexivity.
Qed.

(** The extraction in closed form: it never ends in a [TypeError]. *)
Lemma extract_closed_form (response : Response) :
  extract response =
    match inlineBlobs (firstCandidateParts response) with
    | [] => NoImageReturned (noImageMessage response)
    | b :: bs => Images (map dataURL (b :: bs))
    end.
Proof.
  unfold extract.
  pose proof (imageParts_firstCandidateParts response) as H.
  destruct (imageParts response) as [ps|].
  - subst ps.
    destruct (filter hasInlineData (firstCandidateParts response)) as [|q qs] eqn:Hf.
    + apply filter_inlineBlobs_nil in Hf. rewrite Hf. reflexivity.
    + rewrite <- Hf, generatedSourcesOf_filter.
      destruct (inlineBlobs (firstCandidateParts response)) as [|b bs] eqn:Hb.
      * apply filter_inlineBlobs_nil in Hb. congruence.
      * reflexivity.
  - rewrite H. reflexivity.
Qed.

Lemma appendImages_srcs (ps : list Part) (grid : list Basic.Img) :
  map Basic.img_src (Basic.appendImages ps grid)
  = (map Basic.img_src grid ++ map dataURL (inlineBlobs ps))%list.
Proof.
  revert grid. induction ps as [|p ps IH]; intros grid; simpl.
  - now rewrite app_nil_r.
  - destruct (inlineData p) as [b|].
    + rewrite IH, map_app. simpl. now rewrite <- app_assoc.
    + apply IH.
Qed.

Lemma inlineBlobs_filter (ps : list Part) :
  inlineBlobs (filter hasInlineData ps) = inlineBlobs ps.
Proof.
  induction ps as [|p ps IH]; simpl; [reflexivity|].
  unfold hasInlineData at 1.
  destruct (inlineData p) as [b|] eqn:Hp; simpl; [rewrite Hp, IH|]; auto.
Qed.

End Extraction.

(** ** The result store and the history *)

Section History.

Import HistoryBuild.

Lemma history_renderHistory (s : State) : history (renderHistory s) = history s.
Proof. unfold renderHistory. destruct (history s) eqn:E; simpl; exact E. Qed.

Lemma history_showResult (result : HistoryItem) (s : State) :
  history (showResult result s) = history s.
Proof. reflexivity. Qed.

Lemma history_updateHistory (r : HistoryItem) (s : State) :
  history (updateHistory r s)
  = if Nat.ltb 5 (S (List.length (history s)))
    then removelast (r :: history s) else r :: history s.
Proof.
  unfold updateHistory. rewrite history_renderHistory.
  change (history (set_history (JS.unshift r (history s)) s)) with (r :: history s).
  change (List.length (r :: history s)) with (S (List.length (history s))).
  destruct (Nat.ltb 5 (S (List.length (history s)))); reflexivity.
Qed.

(** On a history within its bound, recording is "prepend, keep five". *)
Lemma history_updateHistory_bounded (r : HistoryItem) (s : State) :
  (List.length (history s) <= 5)%nat ->
  history (updateHistory r s) = firstn 5 (r :: history s).
Proof.
  intros Hlen. rewrite history_updateHistory.
  destruct (Nat.ltb 5 (S (List.length (history s)))) eqn:Hlt.
  - apply Nat.ltb_lt in Hlt.
    rewrite removelast_firstn_len. simpl List.length.
    replace (Nat.pred (S (List.length (history s)))) with 5 by lia. reflexivity.
  - apply Nat.ltb_ge in Hlt. symmetry. apply firstn_all2. simpl. lia.
Qed.

Lemma length_updateHistory (r : HistoryItem) (s : State) :
  (List.length (history s) <= 5)%nat ->
  (List.length (history (updateHistory r s)) <= 5)%nat.
Proof.
  intros Hlen. rewrite history_updateHistory_bounded by exact Hlen.
  rewrite length_firstn. lia.
Qed.

Lemma firstn_app_firstn {A : Type} (n : nat) (a b : list A) :
  firstn n (a ++ firstn n b) = firstn n (a ++ b).
Proof.
  rewrite !firstn_app, firstn_firstn.
  replace (Nat.min (n - List.length a) n) with (n - List.length a) by lia.
  reflexivity.
Qed.

Lemma history_recordAll (rs : list HistoryItem) (s : State) :
  (List.length (history s) <= 5)%nat ->
  history (recordAll rs s) = firstn 5 (rev rs ++ history s).
Proof.
  revert s. induction rs as [|r rs IH]; intros s Hlen; cbn [recordAll rev app].
  - symmetry. apply firstn_all2. exact Hlen.
  - rewrite IH by (apply length_updateHistory; exact Hlen).
    rewrite history_updateHistory_bounded by exact Hlen.
    rewrite firstn_app_firstn, <- app_assoc. reflexivity.
Qed.

Lemma history_initialState (i : Inputs) (markup : State) :
  history (initialState i markup) = [].
Proof. reflexivity. Qed.

Lemma history_thumbnailClick (n : nat) (s : State) :
  history (thumbnailClick n s) = history s.
Proof.
  unfold thumbnailClick.
  destruct (JS.index (variantsContainer s) n) as [[|src index active]|]; reflexivity.
Qed.

Lemma history_historyItemClick (n : nat) (s : State) :
  history (historyItemClick n s) = history s.
Proof.
  unfold historyItemClick.
  destruct (JS.index (historyContainer s) n) as [[|src index it]|]; reflexivity.
Qed.

Lemma shown_updateHistory (r : HistoryItem) (s : State) :
  currentGeneratedSources (updateHistory r s) = currentGeneratedSources s
  /\ beforeImage_src (updateHistory r s) = beforeImage_src s.
Proof.
  unfold updateHistory, renderHistory.
  destruct (Nat.ltb 5 _);
    match goal with
    | |- context [match history ?x with _ => _ end] => destruct (history x)
    end; split; reflexivity.
Qed.

Lemma record_head (r : HistoryItem) (s : State) :
  exists tl, history (updateHistory r s) = r :: tl.
Proof.
  rewrite history_updateHistory.
  destruct (Nat.ltb 5 (S (List.length (history s)))) eqn:Hlt.
  - apply Nat.ltb_lt in Hlt.
    destruct (history s) as [|h tl]; [simpl in Hlt; lia|].
    eexists. reflexivity.
  - eexists. reflexivity.
Qed.

Lemma historyContainer_updateHistory (r : HistoryItem) (s : State) :
  exists rest,
    historyContainer (updateHistory r s)
    = HistoryImg (JS.index (variants r) 0) 0 r :: rest.
Proof.
  pose proof (history_updateHistory r s) as Hh.
  unfold updateHistory in *.
  set (s1 := if Nat.ltb 5 _ then _ else _) in *.
  rewrite history_renderHistory in Hh.
  assert (Hhead : exists tl, history s1 = r :: tl).
  { rewrite Hh. destruct (Nat.ltb 5 (S (List.length (history s)))) eqn:Hlt.
    - apply Nat.ltb_lt in Hlt.
      destruct (history s) as [|h tl]; [simpl in Hlt; lia|].
      eexists. reflexivity.
    - eexists. reflexivity. }
  destruct Hhead as [tl Htl].
  unfold renderHistory. rewrite Htl. simpl. eexists. reflexivity.
Qed.

End History.

(** ** The click handlers, case by case *)

Lemma inputsReady_Some (i : Inputs) (productFile photoFile : File) :
  inputsReady i = Some (productFile, photoFile) ->
  JS.first (productUpload_files i) = Some productFile /\
  JS.first (photoUpload_files i) = Some photoFile /\
  JS.truthy (API_KEY i) = true.
Proof.
  unfold inputsReady.
  destruct (JS.first (productUpload_files i)), (JS.first (photoUpload_files i)),
    (JS.truthy (API_KEY i)); intros H; inversion H; auto.
Qed.

Lemma inputsReady_None (i : Inputs) :
  JS.first (productUpload_files i) = None \/
  JS.first (photoUpload_files i) = None \/
  JS.truthy (API_KEY i) = false ->
  inputsReady i = None.
Proof.
  unfold inputsReady. intros [H|[H|H]]; rewrite H; try reflexivity.
  - destruct (JS.first (productUpload_files i)); reflexivity.
  - destruct (JS.first (productUpload_files i)), (JS.first (photoUpload_files i));
      reflexivity.
Qed.

Ltac step_eff :=
  cbv beta iota zeta delta
    [bind tryCatchFinally modify emit ret throw get generateContent
     HistoryBuild.fileToGenerativePart Basic.fileToGenerativePart
     stateOf eventsOf fst snd app].

(** One case split of a click: the guard, a file read, the answer of the
    service, the outcome of the extraction. *)
Ltac split_click :=
  match goal with
  | |- context [match inputsReady ?i with _ => _ end] =>
      let H := fresh "Hready" in
      destruct (inputsReady i) as [[? ?]|] eqn:H; step_eff
  | |- context [match file_dataURL ?f with _ => _ end] =>
      let H := fresh "Hread" in
      destruct (file_dataURL f) eqn:H; step_eff
  | |- context [match extract ?r with _ => _ end] =>
      let H := fresh "Hclosed" in
      pose proof (extract_closed_form r) as H;
      destruct (extract r) as [[|? ?]| |]; step_eff
  | |- context [match imageParts ?r with _ => _ end] =>
      let H := fresh "Hparts" in
      pose proof (imageParts_firstCandidateParts r) as H;
      destruct (imageParts r) as [[|? ?]|]; step_eff
  | |- context [match ?service ?req with Some _ => _ | None => _ end] =>
      let H := fresh "Hanswer" in
      destruct (service req) eqn:H; step_eff
  end.

Ltac run_click := step_eff; repeat split_click.

(** *** What the helpers of the page leave alone *)

#[global] Instance keeps_stored_setLoadingState b i :
  KeepsStored (HistoryBuild.setLoadingState b i).
Proof. intros s. destruct b; reflexivity. Qed.
#[global] Instance keeps_stored_showLoadingPlaceholders :
  KeepsStored HistoryBuild.showLoadingPlaceholders.
Proof. intros s. reflexivity. Qed.
#[global] Instance keeps_stored_hideLoadingPlaceholders :
  KeepsStored HistoryBuild.hideLoadingPlaceholders.
Proof. intros s. reflexivity. Qed.
#[global] Instance keeps_stored_set_originalPhotoSrc v :
  KeepsStored (HistoryBuild.set_originalPhotoSrc v).
Proof. intros s. reflexivity. Qed.
#[global] Instance keeps_stored_set_outputContainer_display v :
  KeepsStored (HistoryBuild.set_outputContainer_display v).
Proof. intros s. reflexivity. Qed.

#[global] Instance keeps_original_setLoadingState b i :
  KeepsOriginalPhotoSrc (HistoryBuild.setLoadingState b i).
Proof. intros s. destruct b; reflexivity. Qed.
#[global] Instance keeps_original_showLoadingPlaceholders :
  KeepsOriginalPhotoSrc HistoryBuild.showLoadingPlaceholders.
Proof. intros s. reflexivity. Qed.
#[global] Instance keeps_original_hideLoadingPlaceholders :
  KeepsOriginalPhotoSrc HistoryBuild.hideLoadingPlaceholders.
Proof. intros s. reflexivity. Qed.
#[global] Instance keeps_original_set_outputContainer_display v :
  KeepsOriginalPhotoSrc (HistoryBuild.set_outputContainer_display v).
Proof. intros s. reflexivity. Qed.

Lemma history_kept f `{KeepsStored f} s :
  HistoryBuild.history (f s) = HistoryBuild.history s.
Proof. pose proof (keeps_stored s) as E. unfold stored in E. congruence. Qed.

Lemma currentGeneratedSources_kept f `{KeepsStored f} s :
  HistoryBuild.currentGeneratedSources (f s) = HistoryBuild.currentGeneratedSources s.
Proof. pose proof (keeps_stored s) as E. unfold stored in E. congruence. Qed.

Lemma beforeImage_src_kept f `{KeepsStored f} s :
  HistoryBuild.beforeImage_src (f s) = HistoryBuild.beforeImage_src s.
Proof. pose proof (keeps_stored s) as E. unfold stored in E. congruence. Qed.

(** Peel the functions that keep the store off the state under [stored],
    [history] or [originalPhotoSrc]. *)
Ltac frame :=
  repeat first
    [ rewrite keeps_stored by typeclasses eauto
    | rewrite history_kept by typeclasses eauto
    | rewrite currentGeneratedSources_kept by typeclasses eauto
    | rewrite beforeImage_src_kept by typeclasses eauto
    | rewrite keeps_originalPhotoSrc by typeclasses eauto ].

Section HistoryBuildClicks.

Import HistoryBuild.

Variable prompt : Inputs -> string.

Lemma generateClick_missing (service : Service) (i : Inputs) (s : State) :
  inputsReady i = None ->
  generateClick prompt service i s = (Normal tt, s, [Alert missingInputMessage]).
Proof. intros H. unfold generateClick. rewrite H. reflexivity. Qed.

(** A click never sends more than one request. *)
Lemma generateClick_one_dispatch (service : Service) (i : Inputs) (s : State) :
  (List.length (dispatched (eventsOf (generateClick prompt service i s))) <= 1)%nat.
Proof. unfold generateClick. run_click; cbn [dispatched List.length]; lia. Qed.

Lemma generateClick_completes (service : Service) (i : Inputs) (s : State) :
  fst (fst (generateClick prompt service i s)) = Normal tt.
Proof. unfold generateClick. run_click; reflexivity. Qed.

Lemma length_history_generateClick (service : Service) (i : Inputs) (s : State) :
  (List.length (history s) <= 5)%nat ->
  (List.length (history (stateOf (generateClick prompt service i s))) <= 5)%nat.
Proof.
  intros Hlen. unfold generateClick. run_click; frame;
    lazymatch goal with
    | |- context [updateHistory] =>
        apply length_updateHistory; rewrite history_showResult; frame; exact Hlen
    | _ => exact Hlen
    end.
Qed.

Lemma length_history_session (intents : list Intent) (s : State) :
  (List.length (history s) <= 5)%nat ->
  (List.length (history (session prompt intents s)) <= 5)%nat.
Proof.
  unfold session. revert s.
  induction intents as [|a intents IH]; intros s Hlen; cbn [fold_left]; [exact Hlen|].
  apply IH. destruct a as [service i|n|n]; cbn [perform].
  - apply length_history_generateClick; exact Hlen.
  - rewrite history_historyItemClick; exact Hlen.
  - rewrite history_thumbnailClick; exact Hlen.
Qed.

(** A click on ready inputs whose request the service answers with K > 0
    inline images puts exactly the extracted sources on display and records
    them, with the photo of the request, at the front of the history. *)
Lemma generateClick_success (service : Service) (i : Inputs) (s : State)
  (productFile photoFile : File) (productURL photoURL : string) (response : Response) :
  inputsReady i = Some (productFile, photoFile) ->
  file_dataURL productFile = Some productURL ->
  file_dataURL photoFile = Some photoURL ->
  service (buildRequest (partOf true productFile productURL)
             (partOf true photoFile photoURL) (prompt i)) = Some response ->
  (0 < imageCount response)%nat ->
  let sources := map dataURL (inlineBlobs (firstCandidateParts response)) in
  let run := generateClick prompt service i s in
  currentGeneratedSources (stateOf run) = sources
  /\ beforeImage_src (stateOf run) = photoURL
  /\ JS.index (history (stateOf run)) 0
     = Some {| original := photoURL; variants := sources |}.
Proof.
  intros Hready Hproduct Hphoto Hanswer Hcount. cbv zeta.
  unfold imageCount in Hcount.
  destruct (inlineBlobs (firstCandidateParts response)) as [|b bs] eqn:Hblobs;
    [simpl in Hcount; lia|].
  set (st := stateOf (generateClick prompt service i s)).
  eassert (Hst : st = _).
  { unfold st, generateClick. rewrite Hready. step_eff.
    rewrite Hproduct. step_eff. rewrite Hphoto. step_eff.
    change (asInlineData _) with (partOf true productFile productURL) at 1.
    change (asInlineData _) with (partOf true photoFile photoURL) at 1.
    rewrite Hanswer. step_eff.
    rewrite extract_closed_form, Hblobs. cbn [map]. step_eff. reflexivity. }
  rewrite Hst. frame.
  match goal with
  | |- context [updateHistory ?r ?x] =>
      destruct (shown_updateHistory r x) as [Hsources Hbefore];
      destruct (record_head r x) as [tl Htl];
      rewrite Hsources, Hbefore, Htl
  end.
  repeat split.
Qed.

End HistoryBuildClicks.

(** ** The properties of the specification *)

Section Claims.

Import HistoryBuild.

(** C1, as the code has it.  For a response whose first candidate carries K
    parts with inline image data, the extraction returns exactly K image
    sources when K > 0, in the order of the parts, each of the form
    [data:<mimeType>;base64,<data>]; when K = 0 it returns the failure case
    with the text of the response, or with the fallback "No text response."
    when the text is absent or is the empty string.  The plain build appends
    the same K sources to its output grid. *)
Theorem extraction_returns_K_sources (response : Response) :
  let blobs := inlineBlobs (firstCandidateParts response) in
  extract response
  = (if Nat.eqb (imageCount response) 0
     then NoImageReturned
            match text response with
            | None => "No text response."
            | Some EmptyString => "No text response."
            | Some t => t
            end
     else Images (map dataURL blobs))
  /\ List.length (map dataURL blobs) = imageCount response
  /\ (forall k,
        nth_error (map dataURL blobs) k
        = option_map (fun b => "data:" ++ mimeType b ++ ";base64," ++ data b)%string
            (nth_error blobs k))
  /\ match imageParts response with
     | Some ps => map Basic.img_src (Basic.appendImages ps []) = map dataURL blobs
     | None => blobs = []
     end.
Proof.
  intros blobs. repeat split.
  - rewrite extract_closed_form. unfold imageCount. fold blobs.
    destruct blobs as [|b bs]; [|reflexivity].
    cbn [List.length Nat.eqb]. unfold noImageMessage, JS.or_else.
    destruct (text response) as [[|c t]|]; reflexivity.
  - unfold imageCount. fold blobs. apply length_map.
  - intros k. apply nth_error_map.
  - pose proof (imageParts_firstCandidateParts response) as H.
    destruct (imageParts response) as [ps|].
    + subst ps. rewrite appendImages_srcs, inlineBlobs_filter. reflexivity.
    + unfold blobs. rewrite H. reflexivity.
Qed.

(** C1 as stated fails where the text of the response is the empty string:
    the code alerts the fallback, not the text. *)
Lemma extraction_empty_text_counterexample :
  let response := {| candidates := None; text := Some "" |} in
  imageCount response = 0
  /\ explanationWhenAbsent response = ""
  /\ extract response = NoImageReturned "No text response."
  /\ extract response <> NoImageReturned (explanationWhenAbsent response).
Proof. repeat split. discriminate. Qed.

(** C9.  The extraction reads the first candidate only: the candidates after
    it do not change its outcome; and a response with no candidates, an
    empty candidate list, a first candidate without content, a content
    without parts or with no part at all yields the failure case, not an
    exception.  A click whose request the service answered with such a
    response ends in the alert of the failure case. *)
Theorem extraction_reads_first_candidate_only :
  (forall c others others' t,
      imageParts {| candidates := Some (c :: others); text := t |}
      = imageParts {| candidates := Some (c :: others'); text := t |}
      /\ extract {| candidates := Some (c :: others); text := t |}
         = extract {| candidates := Some (c :: others'); text := t |})
  /\ (forall t,
        let failure := NoImageReturned (JS.or_else t "No text response.") in
        extract {| candidates := None; text := t |} = failure
        /\ extract {| candidates := Some []; text := t |} = failure
        /\ (forall others,
              extract {| candidates := Some ({| content := None |} :: others); text := t |}
              = failure
              /\ extract {| candidates :=
                              Some ({| content := Some {| parts := None |} |} :: others);
                            text := t |} = failure
              /\ extract {| candidates :=
                              Some ({| content := Some {| parts := Some [] |} |} :: others);
                            text := t |} = failure))
  /\ (forall prompt service i s req response,
        dispatched (eventsOf (generateClick prompt service i s)) = [req] ->
        service req = Some response ->
        imageCount response = 0 ->
        eventsOf (generateClick prompt service i s)
        = [GenerateContent req;
           Alert (noImagePrefix ++ JS.or_else (text response) "No text response.")]).
Proof.
  split; [|split].
  - intros c others others' t. split; reflexivity.
  - intros t failure. repeat split.
  - intros prompt service i s req response.
    unfold generateClick. run_click; cbn [dispatched]; intros Hreq Hans Hzero;
      try discriminate; injection Hreq as Hreq; subst req;
      pose proof (eq_trans (eq_sym Hanswer) Hans) as Hsame;
      try discriminate; injection Hsame as Hsame; subst response.
    all: unfold imageCount in Hzero; apply length_zero_iff_nil in Hzero;
      rewrite Hzero in Hclosed; try discriminate.
    injection Hclosed as Hclosed; subst. reflexivity.
Qed.

Lemma extraction_reads_first_candidate_only_witness :
  let service : Service :=
    fun _ => Some (responseOf [textPart "I cannot do that."] (Some "I cannot do that.")) in
  eventsOf (Composite.generateClick service readyInputs blankPage)
  = [GenerateContent
       (buildRequest
          (partOf true (pngFile "shirt.png" "UFJPRA==") "data:image/png;base64,UFJPRA==")
          (partOf true (pngFile "me.png" "UEhPVE8=") "data:image/png;base64,UEhPVE8=")
          (Composite.prompt readyInputs));
     Alert "Could not generate an image. Model response: I cannot do that."].
Proof.
  intros service.
  apply (proj2 (proj2 extraction_reads_first_candidate_only)
           Composite.prompt service readyInputs blankPage _
           (responseOf [textPart "I cannot do that."] (Some "I cannot do that."))).
  - reflexivity.
  - reflexivity.
  - reflexivity.
Defined.

(** C2.  Whatever results are recorded, one after the other, from the page
    as loaded: the history never holds more than five entries and is the
    five most recent results, newest first; the result just recorded is at
    index 0; after six more recordings the first of the six is gone and the
    history is the other five, newest first.  No sequence of user intents
    brings the history above five entries either. *)
Theorem history_bounded_newest_first (i : Inputs) (markup : State) (rs : list HistoryItem) :
  let s := recordAll rs (initialState i markup) in
  (List.length (history s) <= 5)%nat
  /\ history s = firstn 5 (rev rs)
  /\ (forall r, JS.index (history (updateHistory r s)) 0 = Some r)
  /\ (forall r1 r2 r3 r4 r5 r6,
        history (recordAll [r1; r2; r3; r4; r5; r6] s) = [r6; r5; r4; r3; r2]
        /\ (~ In r1 [r2; r3; r4; r5; r6] ->
            ~ In r1 (history (recordAll [r1; r2; r3; r4; r5; r6] s))))
  /\ (forall prompt intents,
        (List.length (history (session prompt intents (initialState i markup))) <= 5)%nat).
Proof.
  intros s.
  assert (Hs : history s = firstn 5 (rev rs)).
  { unfold s. rewrite history_recordAll by (rewrite history_initialState; simpl; lia).
    rewrite history_initialState, app_nil_r. reflexivity. }
  assert (Hlen : (List.length (history s) <= 5)%nat).
  { rewrite Hs, length_firstn. lia. }
  assert (Hsix : forall r1 r2 r3 r4 r5 r6,
             history (recordAll [r1; r2; r3; r4; r5; r6] s) = [r6; r5; r4; r3; r2]).
  { intros. rewrite history_recordAll by exact Hlen. reflexivity. }
  split; [exact Hlen|]. split; [exact Hs|]. split; [|split].
  - intros r. rewrite history_updateHistory_bounded by exact Hlen. reflexivity.
  - intros r1 r2 r3 r4 r5 r6. split; [apply Hsix|].
    rewrite Hsix. intros Hnot Hin. apply Hnot.
    cbn [In] in *. intuition.
  - intros prompt intents. apply length_history_session.
    rewrite history_initialState. simpl. lia.
Qed.

Lemma history_bounded_newest_first_witness :
  let r (n : string) := item ("photo" ++ n)%string [("variant" ++ n)%string] in
  let s := recordAll [r "0"] (initialState readyInputs blankPage) in
  history (recordAll [r "1"; r "2"; r "3"; r "4"; r "5"; r "6"] s)
  = [r "6"; r "5"; r "4"; r "3"; r "2"]
  /\ ~ In (r "1") (history (recordAll [r "1"; r "2"; r "3"; r "4"; r "5"; r "6"] s)).
Proof.
  intros r s.
  destruct (history_bounded_newest_first readyInputs blankPage [r "0"])
    as (_ & _ & _ & Hsix & _).
  destruct (Hsix (r "1") (r "2") (r "3") (r "4") (r "5") (r "6")) as [Heq Habsent].
  split; [exact Heq|].
  apply Habsent. simpl. intros [H|[H|[H|[H|[H|[]]]]]]; discriminate H.
Defined.

(** C5.  For every result and every prior state of the page, recording the
    result and then selecting the first entry of the history shows that very
    result: the entry at index 0 is the result, the first image of the
    history container captured it, and its click puts the result's original
    and variants on display unchanged. *)
Theorem record_then_select_roundtrip (r : HistoryItem) (s : State) :
  let s1 := updateHistory r s in
  JS.index (history s1) 0 = Some r
  /\ (exists src, JS.index (historyContainer s1) 0 = Some (HistoryImg src 0 r))
  /\ historyItemClick 0 s1 = showResult r s1
  /\ beforeImage_src (historyItemClick 0 s1) = original r
  /\ currentGeneratedSources (historyItemClick 0 s1) = variants r.
Proof.
  intros s1.
  destruct (historyContainer_updateHistory r s) as [rest Hc]. fold s1 in Hc.
  assert (Hclick : historyItemClick 0 s1 = showResult r s1).
  { unfold historyItemClick. rewrite Hc. reflexivity. }
  repeat split.
  - unfold s1. rewrite history_updateHistory.
    destruct (Nat.ltb 5 (S (List.length (history s)))) eqn:Hlt; [|reflexivity].
    apply Nat.ltb_lt in Hlt.
    destruct (history s) as [|h tl]; [simpl in Hlt; lia|reflexivity].
  - rewrite Hc. eexists. reflexivity.
  - exact Hclick.
  - rewrite Hclick. reflexivity.
  - rewrite Hclick. reflexivity.
Qed.

(** C10.  Selecting an entry of the history, that is the click on a history
    image and the [showResult] it runs, leaves the history as it was: the
    same entries in the same order, each with its original and variants, and
    the same rendering of it; selecting a variant leaves it alone too. *)
Theorem select_leaves_history_unchanged (s : State) (n : nat) (result : HistoryItem) :
  history (historyItemClick n s) = history s
  /\ historyContainer (historyItemClick n s) = historyContainer s
  /\ history (showResult result s) = history s
  /\ historyContainer (showResult result s) = historyContainer s
  /\ originalPhotoSrc (showResult result s) = originalPhotoSrc s
  /\ history (thumbnailClick n s) = history s
  /\ (forall k,
        option_map original (JS.index (history (historyItemClick n s)) k)
        = option_map original (JS.index (history s) k)
        /\ option_map variants (JS.index (history (historyItemClick n s)) k)
           = option_map variants (JS.index (history s) k)).
Proof.
  assert (Hh := history_historyItemClick n s).
  repeat split; try reflexivity.
  - exact Hh.
  - unfold historyItemClick.
    destruct (JS.index (historyContainer s) n) as [[|src index it]|]; reflexivity.
  - apply history_thumbnailClick.
  - rewrite Hh. reflexivity.
  - rewrite Hh. reflexivity.
Qed.

(** C3.  When the product image is absent, or the scene image is absent, or
    the API key is unset (or empty), the click is rejected in every build
    with the alert of the missing input: it completes with the page exactly
    as it was, so no loading state is entered, and its only event is that
    alert, so the network collaborator is not invoked. *)
Theorem missing_input_rejected (service : Service) (i : Inputs) :
  JS.first (productUpload_files i) = None \/
  JS.first (photoUpload_files i) = None \/
  JS.truthy (API_KEY i) = false ->
  (forall prompt s,
      generateClick prompt service i s = (Normal tt, s, [Alert missingInputMessage])
      /\ stateOf (generateClick prompt service i s) = s
      /\ dispatched (eventsOf (generateClick prompt service i s)) = [])
  /\ (forall s,
        Basic.generateClick service i s = (Normal tt, s, [Alert Basic.missingInputMessage])
        /\ stateOf (Basic.generateClick service i s) = s
        /\ dispatched (eventsOf (Basic.generateClick service i s)) = []).
Proof.
  intros Hmissing. apply inputsReady_None in Hmissing. split.
  - intros prompt s. rewrite generateClick_missing by exact Hmissing. repeat split.
  - intros s. unfold Basic.generateClick. rewrite Hmissing. repeat split.
Qed.

Lemma missing_input_rejected_witness :
  let i := {| productUpload_files := Some [pngFile "shirt.png" "UFJPRA=="];
              photoUpload_files := Some [];
              API_KEY := Some "key";
              scaleSlider_value := "40";
              shadowSlider_value := "0.6";
              placementSelect_value := "center" |} in
  TryOn.generateClick twoImages i blankPage
  = (Normal tt, blankPage, [Alert "Please provide both product and scene photos."]).
Proof.
  intros i.
  apply (proj1 (missing_input_rejected twoImages i (or_intror (or_introl eq_refl)))
           TryOn.prompt blankPage).
Defined.

(** C4, as the code has it.  A click that ends in one of the three error
    kinds completes, sends at most one request, and leaves the history, its
    rendering, the sources of the current result and the [src] of the image
    before and of the image after of the comparison exactly as they were.
    A missing input leaves the whole page as it was.  A failure of the
    service during dispatch and a response without image do not: they find
    the variable [originalPhotoSrc] already overwritten with the data URL of
    the photo of this request, and they leave the three loading
    placeholders in place of the variant thumbnails and the output container
    and the download button hidden. *)
Theorem errors_keep_history_and_current_result
  (prompt : Inputs -> string) (service : Service) (i : Inputs) (s : State) (kind : ErrorKind) :
  let run := generateClick prompt service i s in
  errorKindOf (eventsOf run) = Some kind ->
  fst (fst run) = Normal tt
  /\ (List.length (dispatched (eventsOf run)) <= 1)%nat
  /\ history (stateOf run) = history s
  /\ historyContainer (stateOf run) = historyContainer s
  /\ currentGeneratedSources (stateOf run) = currentGeneratedSources s
  /\ beforeImage_src (stateOf run) = beforeImage_src s
  /\ afterImage_src (stateOf run) = afterImage_src s
  /\ match kind with
     | MissingInput => stateOf run = s
     | ServiceFailure | NoImage =>
         (exists photoFile url,
             JS.first (photoUpload_files i) = Some photoFile
             /\ file_dataURL photoFile = Some url
             /\ originalPhotoSrc (stateOf run) = url)
         /\ variantsContainer (stateOf run) = [Placeholder; Placeholder; Placeholder]
         /\ outputContainer_display (stateOf run) = "none"
         /\ downloadButton_display (stateOf run) = "none"
     end.
Proof.
  intros run Hkind.
  split; [apply generateClick_completes|].
  split; [apply generateClick_one_dispatch|].
  assert (Hstored : stored (stateOf run) = stored s
                    /\ match kind with
                       | MissingInput => stateOf run = s
                       | ServiceFailure | NoImage =>
                           (exists photoFile url,
                               JS.first (photoUpload_files i) = Some photoFile
                               /\ file_dataURL photoFile = Some url
                               /\ originalPhotoSrc (stateOf run) = url)
                           /\ variantsContainer (stateOf run)
                              = [Placeholder; Placeholder; Placeholder]
                           /\ outputContainer_display (stateOf run) = "none"
                           /\ downloadButton_display (stateOf run) = "none"
                       end).
  { revert Hkind. unfold run, generateClick.
    run_click; cbn [errorKindOf]; intros Hkind; try discriminate;
      injection Hkind as Hkind; subst kind; (split; [frame; reflexivity|]);
      try reflexivity.
    all: apply inputsReady_Some in Hready as (_ & Hphoto & _).
    all: split; [|repeat split].
    all: eexists; eexists; split; [exact Hphoto|split; [eassumption|]].
    all: frame; reflexivity. }
  destruct Hstored as [Hstored Horiginal].
  unfold stored in Hstored. injection Hstored as H1 H2 H3 H4 H5.
  repeat (split; [assumption|]). exact Horiginal.
Qed.

Lemma errors_keep_history_and_current_result_witness :
  let s := stateOf (Composite.generateClick twoImages readyInputs blankPage) in
  let run := Composite.generateClick textOnly otherInputs s in
  history (stateOf run) = history s
  /\ currentGeneratedSources (stateOf run)
     = ["data:image/png;base64,AAAA"; "data:image/png;base64,BBBB"]
  /\ beforeImage_src (stateOf run) = "data:image/png;base64,UEhPVE8="
  /\ variantsContainer s
     = [Thumbnail "data:image/png;base64,AAAA" 0 true;
        Thumbnail "data:image/png;base64,BBBB" 1 false]
  /\ variantsContainer (stateOf run) = [Placeholder; Placeholder; Placeholder]
  /\ outputContainer_display (stateOf run) = "none".
Proof.
  intros s run.
  destruct (errors_keep_history_and_current_result
              Composite.prompt textOnly otherInputs s NoImage eq_refl)
    as (_ & _ & Hh & _ & Hc & Hb & _ & _ & Hthumbs & Hout & _).
  split; [exact Hh|].
  split; [etransitivity; [exact Hc|vm_compute; reflexivity]|].
  split; [etransitivity; [exact Hb|vm_compute; reflexivity]|].
  split; [vm_compute; reflexivity|].
  split; [exact Hthumbs|exact Hout].
Defined.

(** C4 as stated fails on [originalPhotoSrc]: after a successful request
    with one photo, a request with another photo that fails at the service
    leaves the variable on the new photo, while the history and the display
    still hold the result of the first. *)
Lemma service_failure_overwrites_originalPhotoSrc :
  let s := stateOf (Composite.generateClick twoImages readyInputs blankPage) in
  let run := Composite.generateClick failing otherInputs s in
  errorKindOf (eventsOf run) = Some ServiceFailure
  /\ originalPhotoSrc s = "data:image/png;base64,UEhPVE8="
  /\ originalPhotoSrc (stateOf run) = "data:image/png;base64,T1RIRVI="
  /\ originalPhotoSrc (stateOf run) <> originalPhotoSrc s
  /\ history (stateOf run) = history s.
Proof. vm_compute. repeat split. discriminate. Qed.

Lemma generateClick_request_shape
  (prompt : Inputs -> string) (service : Service) (i : Inputs) (s : State) (req : Request) :
  In req (dispatched (eventsOf (generateClick prompt service i s))) ->
  requestShape true i (prompt i) req.
Proof.
  unfold generateClick.
  run_click; cbn [dispatched In]; intros Hin; try contradiction;
    destruct Hin as [Hin|[]]; subst req;
    apply inputsReady_Some in Hready as (Hproduct & Hphoto & _);
    unfold requestShape; do 4 eexists;
    (split; [exact Hproduct|split; [exact Hphoto|split; [eassumption|split; [eassumption|]]]]);
    split; reflexivity.
Qed.

(** C7.  Every request a click dispatches, in each of the three builds,
    carries exactly three content parts in this order: the product image as
    inline data, the scene image as inline data, the text of the prompt;
    and it declares exactly the two response modalities IMAGE and TEXT. *)
Theorem dispatched_request_shape (service : Service) (i : Inputs) (req : Request) :
  (forall s,
      In req (dispatched (eventsOf (TryOn.generateClick service i s))) ->
      requestShape true i (TryOn.prompt i) req)
  /\ (forall s,
        In req (dispatched (eventsOf (Composite.generateClick service i s))) ->
        requestShape true i (Composite.prompt i) req)
  /\ (forall s,
        In req (dispatched (eventsOf (Basic.generateClick service i s))) ->
        requestShape false i (Basic.prompt i) req).
Proof.
  split; [|split].
  - intros s. apply generateClick_request_shape.
  - intros s. apply generateClick_request_shape.
  - intros s. unfold Basic.generateClick.
    run_click; cbn [dispatched In]; intros Hin; try contradiction;
      destruct Hin as [Hin|[]]; subst req;
      apply inputsReady_Some in Hready as (Hproduct & Hphoto & _);
      unfold requestShape; do 4 eexists;
      (split; [exact Hproduct|split; [exact Hphoto|split; [eassumption|split; [eassumption|]]]]);
      split; reflexivity.
Qed.

Lemma dispatched_request_shape_witness :
  let req :=
    {| req_model := "gemini-2.5-flash-image-preview";
       req_parts :=
         [ReqInlineData {| id_mimeType := "image/png"; id_data := Some "UFJPRA==";
                           id_url := Some "data:image/png;base64,UFJPRA==" |};
          ReqInlineData {| id_mimeType := "image/png"; id_data := Some "UEhPVE8=";
                           id_url := Some "data:image/png;base64,UEhPVE8=" |};
          ReqText (TryOn.prompt readyInputs)];
       req_responseModalities := [IMAGE; TEXT] |} in
  In req (dispatched (eventsOf (TryOn.generateClick twoImages readyInputs blankPage)))
  /\ requestShape true readyInputs (TryOn.prompt readyInputs) req.
Proof.
  intros req.
  assert (Hin : In req (dispatched
                          (eventsOf (TryOn.generateClick twoImages readyInputs blankPage)))).
  { left. reflexivity. }
  split; [exact Hin|].
  exact (proj1 (dispatched_request_shape twoImages readyInputs req) blankPage Hin).
Defined.

(** C8.  A result is built, shown and recorded by a click only when the
    extraction found at least one inline image: a click that changed the
    history sent a request whose response carries an image part, and under a
    service that answers with responses without image part a click leaves the
    history, its rendering and the result on display as they were. *)
Theorem result_only_from_images
  (prompt : Inputs -> string) (service : Service) (i : Inputs) (s : State) :
  let run := generateClick prompt service i s in
  (history (stateOf run) <> history s ->
   exists req response,
     dispatched (eventsOf run) = [req]
     /\ service req = Some response
     /\ (0 < imageCount response)%nat)
  /\ ((forall req response, service req = Some response -> imageCount response = 0) ->
      history (stateOf run) = history s
      /\ historyContainer (stateOf run) = historyContainer s
      /\ currentGeneratedSources (stateOf run) = currentGeneratedSources s
      /\ beforeImage_src (stateOf run) = beforeImage_src s
      /\ afterImage_src (stateOf run) = afterImage_src s).
Proof.
  intros run. split.
  - unfold run, generateClick.
    run_click; frame; intros Hchanged; try (exfalso; apply Hchanged; reflexivity).
    do 2 eexists. split; [cbn [dispatched]; reflexivity|]. split; [exact Hanswer|].
    unfold imageCount.
    destruct (inlineBlobs (firstCandidateParts r)); [discriminate Hclosed|simpl; lia].
  - intros Htext.
    assert (Hstored : stored (stateOf run) = stored s).
    { unfold run, generateClick.
      run_click; frame; try reflexivity.
      apply Htext in Hanswer. unfold imageCount in Hanswer.
      apply length_zero_iff_nil in Hanswer. rewrite Hanswer in Hclosed.
      discriminate Hclosed. }
    unfold stored in Hstored. injection Hstored as H1 H2 H3 H4 H5. auto.
Qed.

Lemma result_only_from_images_witness :
  (exists req response,
      dispatched (eventsOf (TryOn.generateClick twoImages readyInputs blankPage)) = [req]
      /\ twoImages req = Some response
      /\ (0 < imageCount response)%nat)
  /\ history (stateOf (TryOn.generateClick textOnly readyInputs blankPage)) = [].
Proof.
  split.
  - apply (proj1 (result_only_from_images TryOn.prompt twoImages readyInputs blankPage)).
    vm_compute. discriminate.
  - apply (proj2 (result_only_from_images TryOn.prompt textOnly readyInputs blankPage)).
    intros req response Hanswer. injection Hanswer as <-. reflexivity.
Defined.

(** *** Substrings of a prompt *)

Lemma string_app_assoc (a b c : string) : ((a ++ b) ++ c)%string = (a ++ b ++ c)%string.
Proof. induction a as [|x a IH]; simpl; [reflexivity|]. now rewrite IH. Qed.

Lemma includes_app_r (needle a b : string) :
  JS.includes needle b = true -> JS.includes needle (a ++ b)%string = true.
Proof.
  intros H. induction a as [|x a IH]; cbn [append]; [exact H|].
  cbn [JS.includes]. rewrite IH.
  destruct (String.prefix needle (String x (a ++ b))); reflexivity.
Qed.

Lemma compositePrompt_split (i : Inputs) :
  Composite.prompt i
  = (joinLines
       [ "Base image: The second image provided (the photo). Overlay image: The first image provided (the product).";
         "";
         "Task: Insert the product from the overlay image into the base image at the " ]
     ++ placementSelect_value i
     ++ joinLines
          [ " area.";
            ("Scale the product to about " ++ scaleSlider_value i ++ "% of the photo's width.");
            "Match the scene’s lighting, color temperature, and perspective.";
            ("Add realistic shadows with an intensity of about " ++ shadowSlider_value i
               ++ " (where 0.0 is none and 1.0 is dark).");
            "Do not modify the person’s face or the background.";
            "Output a natural-looking, high-resolution composite suitable for a premium ecommerce preview.";
            "Generate 3 variants with slight rotation differences." ])%string.
Proof.
  unfold Composite.prompt, joinLines.
  cbn [String.concat]. rewrite !string_app_assoc. reflexivity.
Qed.

(** C6, as the code has it.  For scale 40: the prompt of the try-on build
    has "40%" at the position of its scale placeholder and no placeholder
    left; shadow and placement are no parameters of that template, and "0.6"
    does not occur in it.  The prompt of the composite build, for scale 40,
    shadow 0.6 and any placement, is the placement between two texts without
    placeholder, the second of which has "40%" and "0.6" at the positions of
    the scale and shadow placeholders. *)
Theorem prompt_substitutes_parameters (placement : string) :
  let i := scenarioInputs placement in
  JS.includes "scaled to approximately 40% of the person's torso height" (TryOn.prompt i)
  = true
  /\ JS.includes "40%" (TryOn.prompt i) = true
  /\ JS.includes "${" (TryOn.prompt i) = false
  /\ JS.includes "0.6" (TryOn.prompt i) = false
  /\ (exists before after,
        Composite.prompt i = (before ++ placement ++ after)%string
        /\ JS.includes "${" before = false
        /\ JS.includes "${" after = false
        /\ String.prefix " area." after = true
        /\ JS.includes "Scale the product to about 40% of the photo's width." after = true
        /\ JS.includes "shadows with an intensity of about 0.6 (where 0.0 is none" after
           = true)
  /\ JS.includes "40%" (Composite.prompt i) = true
  /\ JS.includes "0.6" (Composite.prompt i) = true.
Proof.
  intros i.
  split; [vm_compute; reflexivity|].
  split; [vm_compute; reflexivity|].
  split; [vm_compute; reflexivity|].
  split; [vm_compute; reflexivity|].
  split; [|split].
  - do 2 eexists. split; [apply compositePrompt_split|].
    repeat split; vm_compute; reflexivity.
  - rewrite compositePrompt_split.
    apply includes_app_r, includes_app_r. vm_compute. reflexivity.
  - rewrite compositePrompt_split.
    apply includes_app_r, includes_app_r. vm_compute. reflexivity.
Qed.

(** C6 as stated fails on the shadow: the template of the try-on build has
    no shadow placeholder, and its prompt for scale 40 and shadow 0.6 holds
    "40%" but not "0.6". *)
Lemma tryOn_prompt_has_no_shadow :
  JS.includes "40%" (TryOn.prompt (scenarioInputs "")) = true
  /\ JS.includes "0.6" (TryOn.prompt (scenarioInputs "")) = false.
Proof. split; vm_compute; reflexivity. Qed.

End Claims.

(** ** Further properties of the code *)

Section Clicks.

Import HistoryBuild.

Variable prompt : Inputs -> string.

Lemma isUploaded_first (files : option (list File)) :
  isUploaded files = match JS.first files with Some _ => true | None => false end.
Proof. destruct files as [[|f fs]|]; reflexivity. Qed.

(** The events of a click, outcome by outcome: a rejected click alerts the
    missing input; a file that cannot be read ends in the catch block before
    anything is sent; a request the service fails ends in the catch block; a
    response without image alerts its explanation; a response with an image
    is silent.  No click raises more than one alert or sends more than one
    request, and the mapping of the image parts never throws. *)
Theorem click_events_by_outcome (service : Service) (i : Inputs) (s : State) :
  let events := eventsOf (generateClick prompt service i s) in
  match inputsReady i with
  | None => events = [Alert missingInputMessage]
  | Some (productFile, photoFile) =>
      match file_dataURL productFile, file_dataURL photoFile with
      | Some productURL, Some photoURL =>
          let req := buildRequest (partOf true productFile productURL)
                       (partOf true photoFile photoURL) (prompt i) in
          match service req with
          | None =>
              events = [GenerateContent req; ConsoleError "Error generating image:";
                        Alert serviceFailureMessage]
          | Some response =>
              if Nat.eqb (imageCount response) 0
              then events = [GenerateContent req;
                             Alert (noImagePrefix
                                    ++ JS.or_else (text response) "No text response.")]
              else events = [GenerateContent req]
          end
      | _, _ => events = [ConsoleError "Error generating image:"; Alert serviceFailureMessage]
      end
  end.
Proof.
  cbv zeta. unfold generateClick.
  destruct (inputsReady i) as [[productFile photoFile]|]; [|reflexivity].
  step_eff.
  destruct (file_dataURL productFile) as [productURL|]; step_eff; [|reflexivity].
  destruct (file_dataURL photoFile) as [photoURL|]; step_eff; [|reflexivity].
  change (asInlineData _) with (partOf true productFile productURL) at 1.
  change (asInlineData _) with (partOf true photoFile photoURL) at 1.
  destruct (service _) as [response|]; step_eff; [|reflexivity].
  rewrite extract_closed_form. unfold imageCount.
  destruct (inlineBlobs (firstCandidateParts response)) as [|b bs]; reflexivity.
Qed.

(** Whatever the outcome of a click that passed the guard, its finally
    block leaves the page out of the loading state: the button enabled again
    with its text "Generate", the spinner hidden, the loading class off. *)
Theorem click_leaves_loading_state (service : Service) (i : Inputs) (s : State)
  (productFile photoFile : File) :
  inputsReady i = Some (productFile, photoFile) ->
  let s' := stateOf (generateClick prompt service i s) in
  generateButton_disabled s' = false
  /\ buttonText s' = "Generate"
  /\ spinner_display s' = "none"
  /\ comparisonContainer_loading s' = false.
Proof.
  intros Hready. cbv zeta.
  destruct (inputsReady_Some _ _ _ Hready) as (Hproduct & Hphoto & _).
  assert (Henabled : forall x,
             generateButton_disabled (setLoadingState false i x) = false).
  { intros x. cbn [setLoadingState negb]. unfold checkFormValidity.
    rewrite !isUploaded_first, Hproduct, Hphoto. reflexivity. }
  unfold generateClick. rewrite Hready. run_click.
  all: match goal with
       | |- context [setLoadingState false _ ?x] => generalize x; intros y
       end.
  all: repeat split; first [ exact (Henabled y) | reflexivity ].
Qed.

(** A click that passed the guard and raised an alert (a file that cannot be
    read, a failure of the service, a response without image) leaves the
    output container hidden, the download button hidden and the three
    loading placeholders in place of the thumbnails, although the sources of
    the last result stay in [currentGeneratedSources]. *)
Theorem failed_click_hides_output (service : Service) (i : Inputs) (s : State)
  (productFile photoFile : File) (msg : string) :
  inputsReady i = Some (productFile, photoFile) ->
  In (Alert msg) (eventsOf (generateClick prompt service i s)) ->
  let s' := stateOf (generateClick prompt service i s) in
  outputContainer_display s' = "none"
  /\ downloadButton_display s' = "none"
  /\ variantsContainer s' = [Placeholder; Placeholder; Placeholder]
  /\ currentGeneratedSources s' = currentGeneratedSources s.
Proof.
  intros Hready. cbv zeta. unfold generateClick. rewrite Hready.
  run_click; cbn [In]; intros Hin;
    try (destruct Hin as [Hin|[]]; discriminate Hin);
    repeat split.
Qed.


End Clicks.

(** *** Sessions keep the page consistent *)

#[global] Instance keeps_emptyMsg_setLoadingState b i :
  KeepsEmptyMsg (HistoryBuild.setLoadingState b i).
Proof. intros s. destruct b; reflexivity. Qed.
#[global] Instance keeps_emptyMsg_showLoadingPlaceholders :
  KeepsEmptyMsg HistoryBuild.showLoadingPlaceholders.
Proof. intros s. reflexivity. Qed.
#[global] Instance keeps_emptyMsg_hideLoadingPlaceholders :
  KeepsEmptyMsg HistoryBuild.hideLoadingPlaceholders.
Proof. intros s. reflexivity. Qed.
#[global] Instance keeps_emptyMsg_set_originalPhotoSrc v :
  KeepsEmptyMsg (HistoryBuild.set_originalPhotoSrc v).
Proof. intros s. reflexivity. Qed.
#[global] Instance keeps_emptyMsg_set_outputContainer_display v :
  KeepsEmptyMsg (HistoryBuild.set_outputContainer_display v).
Proof. intros s. reflexivity. Qed.
#[global] Instance keeps_emptyMsg_showResult r : KeepsEmptyMsg (HistoryBuild.showResult r).
Proof. intros s. reflexivity. Qed.
#[global] Instance keeps_emptyMsg_renderHistory : KeepsEmptyMsg HistoryBuild.renderHistory.
Proof.
  intros s. unfold HistoryBuild.renderHistory.
  destruct (HistoryBuild.history s); reflexivity.
Qed.
#[global] Instance keeps_emptyMsg_updateHistory r :
  KeepsEmptyMsg (HistoryBuild.updateHistory r).
Proof.
  intros s. unfold HistoryBuild.updateHistory.
  rewrite keeps_emptyMsg_renderHistory.
  destruct (Nat.ltb 5 _); reflexivity.
Qed.

Ltac frame_msg := repeat (rewrite keeps_emptyMsg by typeclasses eauto).

Section Sessions.

Import HistoryBuild.

Lemma historyContainer_renderHistory (s : State) :
  historyContainer (renderHistory s)
  = match history s with
    | [] => if historyEmptyMsg s then [HistoryEmpty] else []
    | _ :: _ => historyImgsFrom 0 (history s)
    end.
Proof. unfold renderHistory. destruct (history s); reflexivity. Qed.

Lemma consistent_fields (a b : State) :
  history a = history b ->
  historyContainer a = historyContainer b ->
  currentGeneratedSources a = currentGeneratedSources b ->
  beforeImage_src a = beforeImage_src b ->
  historyEmptyMsg a = historyEmptyMsg b ->
  consistent b -> consistent a.
Proof.
  intros Hh Hcont Hsrc Hbefore Hmsg (Hc & Hf & Hd).
  unfold consistent.
  rewrite historyContainer_renderHistory in *.
  rewrite Hh, Hcont, Hsrc, Hbefore, Hmsg. auto.
Qed.

Lemma consistent_ext (a b : State) :
  stored a = stored b -> historyEmptyMsg a = historyEmptyMsg b ->
  consistent b -> consistent a.
Proof.
  intros Hstored Hmsg.
  unfold stored in Hstored. injection Hstored as Hh Hcont Hsrc Hbefore Hafter.
  apply consistent_fields; assumption.
Qed.

Lemma Forall_removelast {A : Type} (P : A -> Prop) (l : list A) :
  Forall P l -> Forall P (removelast l).
Proof.
  induction 1 as [|x l Hx Hl IH]; [constructor|].
  destruct l as [|y l]; [constructor|].
  change (removelast (x :: y :: l)) with (x :: removelast (y :: l)).
  constructor; assumption.
Qed.

Lemma rendered_renderHistory (z : State) :
  historyContainer (renderHistory z) = historyContainer (renderHistory (renderHistory z)).
Proof.
  rewrite !historyContainer_renderHistory.
  rewrite history_renderHistory, keeps_emptyMsg_renderHistory. reflexivity.
Qed.

Lemma consistent_recorded (r : HistoryItem) (x : State) :
  variants r <> [] ->
  Forall (fun entry => variants entry <> []) (history x) ->
  consistent (updateHistory r (showResult r x)).
Proof.
  intros Hr Hx. unfold consistent.
  destruct (shown_updateHistory r (showResult r x)) as [Hsrc Hbefore].
  destruct (record_head r (showResult r x)) as [tl Htl].
  split; [|split].
  - unfold updateHistory. cbv zeta. apply rendered_renderHistory.
  - rewrite history_updateHistory, history_showResult.
    destruct (Nat.ltb 5 _).
    + apply Forall_removelast. constructor; assumption.
    + constructor; assumption.
  - right. rewrite Hsrc, Hbefore, Htl.
    left. destruct r; reflexivity.
Qed.

Variable prompt : Inputs -> string.

(** The state after a click: nothing of the store has changed, or a result
    with at least one variant has been shown and recorded. *)
Lemma generateClick_result (service : Service) (i : Inputs) (s : State) :
  let s' := stateOf (generateClick prompt service i s) in
  (stored s' = stored s /\ historyEmptyMsg s' = historyEmptyMsg s)
  \/ (exists r x,
         variants r <> []
         /\ history x = history s
         /\ stored s' = stored (updateHistory r (showResult r x))
         /\ historyEmptyMsg x = historyEmptyMsg s
         /\ historyEmptyMsg s' = historyEmptyMsg s).
Proof.
  cbv zeta. unfold generateClick.
  run_click;
    lazymatch goal with
    | |- (stored ?t = _ /\ _) \/ _ =>
        lazymatch t with
        | context [updateHistory] =>
            right; do 2 eexists;
            split; [|split; [|split; [frame; reflexivity|split]]];
            [ cbn [variants]; discriminate
            | frame; reflexivity
            | frame_msg; reflexivity
            | frame_msg; reflexivity ]
        | _ => left; split; [frame; reflexivity|frame_msg; reflexivity]
        end
    end.
Qed.

Lemma historyEmptyMsg_perform (a : Intent) (s : State) :
  historyEmptyMsg (perform prompt s a) = historyEmptyMsg s.
Proof.
  destruct a as [service i|n|n]; cbn [perform].
  - destruct (generateClick_result service i s) as [[_ H]|(r & x & _ & _ & _ & _ & H)];
      exact H.
  - unfold historyItemClick.
    destruct (JS.index (historyContainer s) n) as [[|src index entry]|]; reflexivity.
  - unfold thumbnailClick.
    destruct (JS.index (variantsContainer s) n) as [[|src index active]|]; reflexivity.
Qed.

Lemma historyEmptyMsg_session (intents : list Intent) (s : State) :
  historyEmptyMsg (session prompt intents s) = historyEmptyMsg s.
Proof.
  unfold session. revert s.
  induction intents as [|a intents IH]; intros s; cbn [fold_left]; [reflexivity|].
  rewrite IH. apply historyEmptyMsg_perform.
Qed.

Lemma consistent_generateClick (service : Service) (i : Inputs) (s : State) :
  consistent s -> consistent (stateOf (generateClick prompt service i s)).
Proof.
  intros Hs.
  destruct (generateClick_result service i s)
    as [[Hstored Hmsg]|(r & x & Hr & Hx & Hstored & Hmsgx & Hmsg)].
  - exact (consistent_ext _ _ Hstored Hmsg Hs).
  - eapply consistent_ext; [exact Hstored| |].
    + rewrite Hmsg. frame_msg. symmetry. exact Hmsgx.
    + apply consistent_recorded; [exact Hr|]. rewrite Hx. apply Hs.
Qed.

Lemma consistent_showResult (entry : HistoryItem) (s : State) :
  consistent s -> In entry (history s) -> consistent (showResult entry s).
Proof.
  intros (Hc & Hf & _) Hin. unfold consistent.
  rewrite historyContainer_renderHistory in *.
  rewrite history_showResult, keeps_emptyMsg_showResult.
  split; [exact Hc|]. split; [exact Hf|].
  right. change (In {| original := original entry; variants := variants entry |} (history s)).
  destruct entry; exact Hin.
Qed.

(** The images of the history container, read back. *)
Lemma index_historyImgsFrom (entries : list HistoryItem) (from n : nat) :
  JS.index (historyImgsFrom from entries) n
  = option_map (fun entry => HistoryImg (JS.index (variants entry) 0) (from + n) entry)
      (JS.index entries n).
Proof.
  revert from n. induction entries as [|e entries IH]; intros from n.
  - destruct n; reflexivity.
  - destruct n as [|n]; cbn [historyImgsFrom JS.index nth_error option_map].
    + rewrite Nat.add_0_r. reflexivity.
    + unfold JS.index in IH. rewrite IH, Nat.add_succ_r. reflexivity.
Qed.

Lemma index_historyContainer (s : State) (n : nat) :
  consistent s ->
  JS.index (historyContainer s) n
  = match history s with
    | [] => JS.index (if historyEmptyMsg s then [HistoryEmpty] else []) n
    | _ :: _ =>
        option_map (fun entry => HistoryImg (JS.index (variants entry) 0) n entry)
          (JS.index (history s) n)
    end.
Proof.
  intros (Hc & _). rewrite Hc, historyContainer_renderHistory.
  destruct (history s) as [|e entries]; [reflexivity|].
  rewrite index_historyImgsFrom. reflexivity.
Qed.

Lemma historyItemClick_consistent (s : State) (n : nat) :
  consistent s ->
  historyItemClick n s
  = match JS.index (history s) n with
    | Some entry => showResult entry s
    | None => s
    end.
Proof.
  intros Hs. unfold historyItemClick. rewrite (index_historyContainer s n Hs).
  destruct (history s) as [|e entries] eqn:Hh.
  - destruct n as [|[|n]]; destruct (historyEmptyMsg s); reflexivity.
  - destruct (JS.index (e :: entries) n); reflexivity.
Qed.

Lemma consistent_perform (a : Intent) (s : State) :
  consistent s -> consistent (perform prompt s a).
Proof.
  intros Hs. destruct a as [service i|n|n]; cbn [perform].
  - apply consistent_generateClick. exact Hs.
  - rewrite (historyItemClick_consistent s n Hs).
    destruct (JS.index (history s) n) as [entry|] eqn:Hn; [|exact Hs].
    apply consistent_showResult; [exact Hs|].
    apply (nth_error_In _ _ Hn).
  - unfold thumbnailClick.
    destruct (JS.index (variantsContainer s) n) as [[|src index active]|];
      try exact Hs.
    revert Hs. apply consistent_fields; reflexivity.
Qed.

Lemma consistent_initialState (i : Inputs) (markup : State) :
  consistent (initialState i markup).
Proof.
  unfold consistent. split; [|split].
  - unfold initialState. cbv zeta. apply rendered_renderHistory.
  - rewrite history_initialState. constructor.
  - left. reflexivity.
Qed.

Lemma consistent_session (intents : list Intent) (s : State) :
  consistent s -> consistent (session prompt intents s).
Proof.
  unfold session. revert s.
  induction intents as [|a intents IH]; intros s Hs; cbn [fold_left]; [exact Hs|].
  apply IH, consistent_perform, Hs.
Qed.

(** In every session from the page as loaded, the history container shows
    the history: the empty-state message (when the page has one) while the
    history is empty, and otherwise one image per entry, in the order of the
    history, with the entry's first variant as source, its position as
    index and the entry itself behind its click. *)
Theorem history_container_shows_history
  (i : Inputs) (markup : State) (intents : list Intent) (n : nat) :
  let s := session prompt intents (initialState i markup) in
  JS.index (historyContainer s) n
  = match history s with
    | [] => JS.index (if historyEmptyMsg markup then [HistoryEmpty] else []) n
    | _ :: _ =>
        option_map (fun entry => HistoryImg (JS.index (variants entry) 0) n entry)
          (JS.index (history s) n)
    end.
Proof.
  intros s.
  rewrite (index_historyContainer s n
             (consistent_session intents _ (consistent_initialState i markup))).
  unfold s. rewrite historyEmptyMsg_session. reflexivity.
Qed.

(** In every session from the page as loaded, every entry of the history
    has at least one variant, so every image of the history container has a
    source: [item.variants[0]] is never [undefined] there. *)
Theorem history_images_have_source
  (i : Inputs) (markup : State) (intents : list Intent)
  (n index : nat) (src : option string) (entry : HistoryItem) :
  let s := session prompt intents (initialState i markup) in
  JS.index (historyContainer s) n = Some (HistoryImg src index entry) ->
  JS.index (history s) n = Some entry
  /\ index = n
  /\ exists first rest, variants entry = first :: rest /\ src = Some first.
Proof.
  intros s Hn.
  assert (Hs : consistent s)
    by apply (consistent_session intents _ (consistent_initialState i markup)).
  rewrite (index_historyContainer s n Hs) in Hn.
  destruct Hs as (_ & Hall & _).
  destruct (history s) as [|e entries] eqn:Hh.
  - destruct (historyEmptyMsg s); destruct n as [|[|n]]; discriminate Hn.
  - destruct (JS.index (e :: entries) n) as [entry'|] eqn:Hentry; [|discriminate Hn].
    injection Hn as Hsrc Hindex Hsame. subst entry' index.
    split; [reflexivity|]. split; [reflexivity|].
    rewrite Forall_forall in Hall.
    pose proof (Hall entry (nth_error_In _ _ Hentry)) as Hnonempty.
    destruct (variants entry) as [|first rest]; [contradiction|].
    exists first, rest. split; [reflexivity|]. subst src. reflexivity.
Qed.

(** In every session from the page as loaded, the click on the image at
    position [n] of the history container shows the entry at position [n]
    of the history, its original and its variants, and leaves the history
    alone; a click at a position without entry changes nothing. *)
Theorem select_shows_entry_at_index
  (i : Inputs) (markup : State) (intents : list Intent) (n : nat) :
  let s := session prompt intents (initialState i markup) in
  (forall entry,
      JS.index (history s) n = Some entry ->
      historyItemClick n s = showResult entry s
      /\ beforeImage_src (historyItemClick n s) = original entry
      /\ currentGeneratedSources (historyItemClick n s) = variants entry
      /\ history (historyItemClick n s) = history s)
  /\ (JS.index (history s) n = None -> historyItemClick n s = s).
Proof.
  intros s.
  assert (Hs : consistent s)
    by apply (consistent_session intents _ (consistent_initialState i markup)).
  split.
  - intros entry Hentry.
    rewrite (historyItemClick_consistent s n Hs), Hentry. repeat split.
  - intros Hnone. rewrite (historyItemClick_consistent s n Hs), Hnone. reflexivity.
Qed.

(** In every session from the page as loaded, the result on display, once
    there is one, is an entry of the history: the original of the
    comparison and the current sources are those of one recorded result. *)
Theorem displayed_result_is_recorded
  (i : Inputs) (markup : State) (intents : list Intent) :
  let s := session prompt intents (initialState i markup) in
  currentGeneratedSources s = []
  \/ In {| original := beforeImage_src s; variants := currentGeneratedSources s |}
       (history s).
Proof.
  intros s.
  apply (consistent_session intents _ (consistent_initialState i markup)).
Qed.

End Sessions.

(** A session of two generations, the second with another photo. *)
Lemma history_images_have_source_witness :
  let s := session Composite.prompt
             [Generate twoImages readyInputs; Generate twoImages otherInputs]
             (HistoryBuild.initialState readyInputs blankPage) in
  JS.index (HistoryBuild.history s) 1
  = Some (item "data:image/png;base64,UEhPVE8="
            ["data:image/png;base64,AAAA"; "data:image/png;base64,BBBB"])
  /\ 1 = 1
  /\ exists first rest,
      variants (item "data:image/png;base64,UEhPVE8="
                  ["data:image/png;base64,AAAA"; "data:image/png;base64,BBBB"])
      = first :: rest
      /\ Some "data:image/png;base64,AAAA" = Some first.
Proof.
  intros s.
  apply (history_images_have_source Composite.prompt readyInputs blankPage
           [Generate twoImages readyInputs; Generate twoImages otherInputs]
           1 1 (Some "data:image/png;base64,AAAA")).
  vm_compute. reflexivity.
Defined.

Lemma select_shows_entry_at_index_witness :
  let s := session Composite.prompt
             [Generate twoImages readyInputs; Generate twoImages otherInputs]
             (HistoryBuild.initialState readyInputs blankPage) in
  HistoryBuild.beforeImage_src (HistoryBuild.historyItemClick 1 s)
  = "data:image/png;base64,UEhPVE8="
  /\ HistoryBuild.historyItemClick 7 s = s.
Proof.
  intros s.
  destruct (select_shows_entry_at_index Composite.prompt readyInputs blankPage
              [Generate twoImages readyInputs; Generate twoImages otherInputs] 1)
    as [Hsome _].
  destruct (select_shows_entry_at_index Composite.prompt readyInputs blankPage
              [Generate twoImages readyInputs; Generate twoImages otherInputs] 7)
    as [_ Hnone].
  split.
  - apply (Hsome (item "data:image/png;base64,UEhPVE8="
                    ["data:image/png;base64,AAAA"; "data:image/png;base64,BBBB"])).
    vm_compute. reflexivity.
  - apply Hnone. vm_compute. reflexivity.
Defined.

(** *** Thumbnails, the main image and the download *)

Section Display.

Import HistoryBuild.

Lemma thumbnailsFrom_thumbnails (sources : list string) (index : nat) :
  thumbnailsFrom index sources = thumbnails 0 index sources.
Proof.
  revert index. induction sources as [|src rest IH]; intros index; [reflexivity|].
  cbn [thumbnailsFrom thumbnails]. rewrite IH. reflexivity.
Qed.

Lemma toggleActive_thumbnails (sources : list string) (n a index : nat) :
  toggleActive n index (thumbnails a index sources) = thumbnails n index sources.
Proof.
  revert index. induction sources as [|src rest IH]; intros index; [reflexivity|].
  cbn [thumbnails toggleActive]. rewrite IH. reflexivity.
Qed.

Lemma index_thumbnails (sources : list string) (a index n : nat) :
  JS.index (thumbnails a index sources) n
  = option_map (fun src => Thumbnail src (index + n) (Nat.eqb (index + n) a))
      (JS.index sources n).
Proof.
  revert index n. induction sources as [|src rest IH]; intros index n.
  - destruct n; reflexivity.
  - destruct n as [|n]; cbn [thumbnails JS.index nth_error option_map].
    + rewrite Nat.add_0_r. reflexivity.
    + unfold JS.index in IH. rewrite IH, Nat.add_succ_r. reflexivity.
Qed.

(** [showResult] puts a result on display whatever the page held before:
    one thumbnail per variant, in the order of the variants, each with its
    position as index and the first one alone active; the first variant as
    the main image (the empty source when there is none); the original as
    the image before; the output and the download button visible. *)
Theorem showResult_displays_result (result : HistoryItem) (s : State) :
  let s' := showResult result s in
  variantsContainer s' = thumbnails 0 0 (variants result)
  /\ (forall n,
        JS.index (variantsContainer s') n
        = option_map (fun src => Thumbnail src n (Nat.eqb n 0))
            (JS.index (variants result) n))
  /\ afterImage_src s' = JS.or_else (JS.index (variants result) 0) ""
  /\ beforeImage_src s' = original result
  /\ currentGeneratedSources s' = variants result
  /\ outputContainer_display s' = "block"
  /\ downloadButton_display s' = "flex".
Proof.
  intros s'.
  assert (Hthumbs : variantsContainer s' = thumbnails 0 0 (variants result))
    by apply thumbnailsFrom_thumbnails.
  split; [exact Hthumbs|]. split; [|repeat split].
  intros n. rewrite Hthumbs, index_thumbnails. reflexivity.
Qed.

(** What the browser resolves a source to, against the page. *)
Variable resolveURL : string -> string.

(** On a page whose variants container holds the thumbnails of some
    sources, the click on the thumbnail at position [n] makes that source
    the main image and that thumbnail alone active, so that the download
    link then points to the URL this source resolves to; it leaves the
    history, the current sources and the image before alone; a click at a
    position without thumbnail changes nothing. *)
Theorem thumbnailClick_selects_variant
  (s : State) (sources : list string) (active n : nat) :
  variantsContainer s = thumbnails active 0 sources ->
  match JS.index sources n with
  | Some src =>
      afterImage_src (thumbnailClick n s) = src
      /\ variantsContainer (thumbnailClick n s) = thumbnails n 0 sources
      /\ link_href (downloadClick resolveURL (thumbnailClick n s)) = resolveURL src
      /\ history (thumbnailClick n s) = history s
      /\ currentGeneratedSources (thumbnailClick n s) = currentGeneratedSources s
      /\ beforeImage_src (thumbnailClick n s) = beforeImage_src s
  | None => thumbnailClick n s = s
  end.
Proof.
  intros Hcontainer. unfold thumbnailClick.
  rewrite Hcontainer, index_thumbnails.
  destruct (JS.index sources n) as [src|]; cbn [option_map]; [|reflexivity].
  repeat split.
  unfold updateMainImage.
  cbn [variantsContainer set_variantsContainer set_afterImage_src].
  rewrite Hcontainer. apply toggleActive_thumbnails.
Qed.

(** The download button delivers the image on display, as the URL the
    browser resolves its source to: after a result is shown, that of its
    first variant (of the empty source when there is none); after clicks on
    thumbnails, that of the variant of the last click that hit a thumbnail;
    always under the one file name.  Where a source resolves to itself, as
    an absolute URL does, the link points to the source itself. *)
Theorem download_delivers_selected_variant (result : HistoryItem) (s : State)
  (clicks : list nat) :
  let shown := showResult result s in
  let s' := fold_left (fun page n => thumbnailClick n page) clicks shown in
  link_download (downloadClick resolveURL s') = "trylens-ai-result.png"
  /\ link_href (downloadClick resolveURL shown)
     = resolveURL (JS.or_else (JS.index (variants result) 0) "")
  /\ (forall n src,
        JS.index (variants result) n = Some src ->
        link_href (downloadClick resolveURL (thumbnailClick n s')) = resolveURL src
        /\ (resolveURL src = src ->
            link_href (downloadClick resolveURL (thumbnailClick n s')) = src))
  /\ (forall n,
        JS.index (variants result) n = None ->
        link_href (downloadClick resolveURL (thumbnailClick n s'))
        = link_href (downloadClick resolveURL s')).
Proof.
  intros shown s'.
  assert (Hthumbs : exists active, variantsContainer s' = thumbnails active 0 (variants result)).
  { unfold s'. clear s'.
    assert (Hshown : exists active,
               variantsContainer shown = thumbnails active 0 (variants result))
      by (exists 0; apply thumbnailsFrom_thumbnails).
    revert Hshown. generalize shown. clear shown.
    induction clicks as [|n clicks IH]; intros page Hpage; cbn [fold_left]; [exact Hpage|].
    apply IH. destruct Hpage as [active Hpage].
    pose proof (thumbnailClick_selects_variant page (variants result) active n Hpage) as H.
    destruct (JS.index (variants result) n) as [src|].
    - exists n. apply H.
    - exists active. rewrite H. exact Hpage. }
  destruct Hthumbs as [active Hthumbs].
  split; [reflexivity|]. split; [reflexivity|]. split.
  - intros n src Hn.
    pose proof (thumbnailClick_selects_variant s' (variants result) active n Hthumbs) as H.
    rewrite Hn in H. destruct H as (_ & _ & Hlink & _).
    split; [exact Hlink|]. intros Hself. rewrite Hlink. exact Hself.
  - intros n Hn.
    pose proof (thumbnailClick_selects_variant s' (variants result) active n Hthumbs) as H.
    rewrite Hn in H. rewrite H. reflexivity.
Qed.

End Display.

(** A page served at [http://localhost/]: a data URL resolves to itself, a
    plain file name to a URL under the page. *)
Lemma thumbnailClick_selects_variant_witness :
  let resolveURL (src : string) :=
    if String.prefix "data:" src then src else ("http://localhost/" ++ src)%string in
  let s := HistoryBuild.showResult (item "photo" ["first"; "second"; "third"]) blankPage in
  HistoryBuild.afterImage_src (HistoryBuild.thumbnailClick 2 s) = "third"
  /\ HistoryBuild.variantsContainer (HistoryBuild.thumbnailClick 2 s)
     = [HistoryBuild.Thumbnail "first" 0 false; HistoryBuild.Thumbnail "second" 1 false;
        HistoryBuild.Thumbnail "third" 2 true]
  /\ link_href (downloadClick resolveURL (HistoryBuild.thumbnailClick 2 s))
     = "http://localhost/third".
Proof.
  intros resolveURL s.
  destruct (thumbnailClick_selects_variant resolveURL s ["first"; "second"; "third"] 0 2
              eq_refl)
    as (Hafter & Hthumbs & Hlink & _).
  split; [exact Hafter|]. split; [exact Hthumbs|exact Hlink].
Defined.

Lemma download_delivers_selected_variant_witness :
  let resolveURL (src : string) :=
    if String.prefix "data:" src then src else ("http://localhost/" ++ src)%string in
  let shown :=
    HistoryBuild.showResult
      (item "photo" ["first"; "data:image/png;base64,AAAA"; "third"]) blankPage in
  let s' := fold_left (fun page n => HistoryBuild.thumbnailClick n page) [2; 9] shown in
  link_href (downloadClick resolveURL (HistoryBuild.thumbnailClick 1 s'))
  = "data:image/png;base64,AAAA"
  /\ link_href (downloadClick resolveURL (HistoryBuild.thumbnailClick 0 s'))
     = "http://localhost/first"
  /\ link_href (downloadClick resolveURL (HistoryBuild.thumbnailClick 5 s'))
     = "http://localhost/third".
Proof.
  intros resolveURL shown s'.
  destruct (download_delivers_selected_variant resolveURL
              (item "photo" ["first"; "data:image/png;base64,AAAA"; "third"])
              blankPage [2; 9])
    as (_ & _ & Hhit & Hmiss).
  split; [|split].
  - apply (Hhit 1 "data:image/png;base64,AAAA"); reflexivity.
  - apply (Hhit 0 "first"). reflexivity.
  - etransitivity; [apply (Hmiss 5); reflexivity|]. vm_compute. reflexivity.
Defined.


(** *** The plain build *)

Section PlainBuild.

Lemma appendImages_alts (ps : list Part) (grid : list Basic.Img) :
  Forall (fun img => Basic.img_alt img = "Generated try-on variant") grid ->
  Forall (fun img => Basic.img_alt img = "Generated try-on variant")
    (Basic.appendImages ps grid).
Proof.
  revert grid. induction ps as [|p ps IH]; intros grid Hgrid; cbn [Basic.appendImages].
  - exact Hgrid.
  - destruct (inlineData p) as [b|]; apply IH; [|exact Hgrid].
    apply Forall_app. split; [exact Hgrid|]. repeat constructor.
Qed.

(** A click of the plain build, outcome by outcome.  A rejected click leaves
    the page alone.  Every other click first empties the output grid, so the
    images of an earlier request never stay: after a file that cannot be
    read, a failure of the service or a response without image the grid is
    empty and the output hidden; after a response with K > 0 images the grid
    holds exactly these K images, in part order, each with the alternative
    text of the build, and the output is visible. *)
Theorem plain_click_by_outcome (service : Service) (i : Inputs) (s : Basic.State) :
  let run := Basic.generateClick service i s in
  let s' := stateOf run in
  let events := eventsOf run in
  let failed := Basic.outputGrid s' = [] /\ Basic.outputContainer_display s' = "none" in
  match inputsReady i with
  | None => run = (Normal tt, s, [Alert Basic.missingInputMessage])
  | Some (productFile, photoFile) =>
      match file_dataURL productFile, file_dataURL photoFile with
      | Some productURL, Some photoURL =>
          let req := buildRequest (partOf false productFile productURL)
                       (partOf false photoFile photoURL) (Basic.prompt i) in
          match service req with
          | None =>
              events = [GenerateContent req; ConsoleError "Error generating image:";
                        Alert Basic.serviceFailureMessage]
              /\ failed
          | Some response =>
              if Nat.eqb (imageCount response) 0
              then events = [GenerateContent req;
                             Alert (HistoryBuild.noImagePrefix
                                    ++ JS.or_else (text response) "No text response.")]
                   /\ failed
              else events = [GenerateContent req]
                   /\ map Basic.img_src (Basic.outputGrid s')
                      = map dataURL (inlineBlobs (firstCandidateParts response))
                   /\ Forall (fun img => Basic.img_alt img = "Generated try-on variant")
                        (Basic.outputGrid s')
                   /\ Basic.outputContainer_display s' = "block"
          end
      | _, _ =>
          events = [ConsoleError "Error generating image:";
                    Alert Basic.serviceFailureMessage]
          /\ failed
      end
  end.
Proof.
  cbv zeta. unfold Basic.generateClick.
  destruct (inputsReady i) as [[productFile photoFile]|]; [|reflexivity].
  step_eff.
  destruct (file_dataURL productFile) as [productURL|]; step_eff; [|repeat split].
  destruct (file_dataURL photoFile) as [photoURL|]; step_eff; [|repeat split].
  change {| id_mimeType := file_type productFile;
            id_data := JS.index (JS.split "," productURL) 1;
            id_url := None |} with (partOf false productFile productURL).
  change {| id_mimeType := file_type photoFile;
            id_data := JS.index (JS.split "," photoURL) 1;
            id_url := None |} with (partOf false photoFile photoURL).
  destruct (service _) as [response|]; step_eff; [|repeat split].
  unfold imageCount.
  pose proof (imageParts_firstCandidateParts response) as Hparts.
  destruct (imageParts response) as [ps|].
  - subst ps.
    destruct (filter hasInlineData (firstCandidateParts response)) as [|q qs] eqn:Hfilter.
    + apply filter_inlineBlobs_nil in Hfilter. rewrite Hfilter. step_eff. repeat split.
    + destruct (inlineBlobs (firstCandidateParts response)) as [|b bs] eqn:Hblobs.
      { apply filter_inlineBlobs_nil in Hblobs. congruence. }
      step_eff. cbn [List.length Nat.eqb].
      cbn [Basic.outputGrid Basic.outputContainer_display Basic.set_outputGrid
           Basic.set_outputContainer_display Basic.setLoadingState
           Basic.checkFormValidity Basic.set_generateButton_disabled
           Basic.set_buttonText Basic.set_spinner_display].
      split; [reflexivity|]. split; [|split; [|reflexivity]].
      * rewrite <- Hfilter, appendImages_srcs, inlineBlobs_filter, Hblobs. reflexivity.
      * apply appendImages_alts. constructor.
  - rewrite Hparts. step_eff. repeat split.
Qed.

(** Whatever the outcome of a click of the plain build that passed the
    guard, its finally block leaves the button enabled with its text
    "Generate Try-On" and the spinner hidden. *)
Theorem plain_click_leaves_loading_state (service : Service) (i : Inputs) (s : Basic.State)
  (productFile photoFile : File) :
  inputsReady i = Some (productFile, photoFile) ->
  let s' := stateOf (Basic.generateClick service i s) in
  Basic.generateButton_disabled s' = false
  /\ Basic.buttonText s' = "Generate Try-On"
  /\ Basic.spinner_display s' = "none".
Proof.
  intros Hready. cbv zeta.
  destruct (inputsReady_Some _ _ _ Hready) as (Hproduct & Hphoto & _).
  assert (Hfinally : forall x,
             Basic.generateButton_disabled (Basic.setLoadingState false i x) = false
             /\ Basic.buttonText (Basic.setLoadingState false i x) = "Generate Try-On"
             /\ Basic.spinner_display (Basic.setLoadingState false i x) = "none").
  { intros x. repeat split.
    cbn [Basic.setLoadingState]. unfold Basic.checkFormValidity.
    rewrite !isUploaded_first, Hproduct, Hphoto. reflexivity. }
  unfold Basic.generateClick. rewrite Hready. run_click.
  all: match goal with
       | |- context [Basic.setLoadingState false _ ?x] => generalize x; intros y
       end.
  all: exact (Hfinally y).
Qed.

Lemma plain_click_leaves_loading_state_witness :
  let s := Basic.mkState [] "none" true "Generate Try-On" "none" in
  Basic.generateButton_disabled (stateOf (Basic.generateClick failing readyInputs s))
  = false.
Proof.
  intros s.
  exact (proj1 (plain_click_leaves_loading_state failing readyInputs s _ _ eq_refl)).
Defined.

End PlainBuild.

(** *** Data URLs: what [fileToGenerativePart] sends *)

Section DataURLs.

Lemma includes_comma_cons (c : ascii) (r : string) :
  JS.includes "," (String c r) = (Ascii.eqb c "," || JS.includes "," r)%bool.
Proof.
  cbn [JS.includes String.prefix].
  destruct (ascii_dec "," c) as [Heq|Hne].
  - subst c. destruct r; reflexivity.
  - destruct (Ascii.eqb_spec c ","); [congruence|reflexivity].
Qed.

Lemma includes_comma_app (a b : string) :
  JS.includes "," (a ++ b) = (JS.includes "," a || JS.includes "," b)%bool.
Proof.
  induction a as [|c a IH]; [reflexivity|].
  cbn [append]. rewrite !includes_comma_cons, IH. apply orb_assoc.
Qed.

Lemma split_commaFree (a : string) :
  JS.includes "," a = false -> JS.split "," a = [a].
Proof.
  induction a as [|c a IH]; intros Hfree; [reflexivity|].
  rewrite includes_comma_cons in Hfree. apply orb_false_iff in Hfree as [Hc Ha].
  cbn [JS.split]. rewrite Hc, (IH Ha). reflexivity.
Qed.

Lemma split_app_comma (a b : string) :
  JS.includes "," a = false ->
  JS.split "," (a ++ String "," b) = a :: JS.split "," b.
Proof.
  induction a as [|c a IH]; intros Hfree; [reflexivity|].
  rewrite includes_comma_cons in Hfree. apply orb_false_iff in Hfree as [Hc Ha].
  cbn [append JS.split]. rewrite Hc, (IH Ha). reflexivity.
Qed.

Lemma payload_of_dataURL (head payload : string) :
  JS.includes "," head = false ->
  JS.includes "," payload = false ->
  JS.index (JS.split "," (head ++ "," ++ payload)) 1 = Some payload.
Proof.
  intros Hhead Hpayload.
  change (head ++ "," ++ payload)%string with (head ++ String "," payload)%string.
  rewrite (split_app_comma _ _ Hhead), (split_commaFree _ Hpayload). reflexivity.
Qed.

(** [fileToGenerativePart], by what the reader yields.  For a data URL
    [<head>,<payload>] with no comma inside the head and the payload, the
    part has the type of the file, the payload as data and the whole URL as
    [url], and neither the page nor the outside sees anything of the read.
    A result without any comma still resolves, with [data] undefined.  A
    read error rejects.  The plain build does the same, without [url]. *)
Theorem fileToGenerativePart_by_read (file : File) :
  (forall head payload,
      file_dataURL file = Some (head ++ "," ++ payload)%string ->
      JS.includes "," head = false ->
      JS.includes "," payload = false ->
      (forall s,
          HistoryBuild.fileToGenerativePart file s
          = (Normal {| HistoryBuild.gp_mimeType := file_type file;
                       HistoryBuild.gp_data := Some payload;
                       HistoryBuild.gp_url := (head ++ "," ++ payload)%string |},
             s, []))
      /\ (forall s,
            Basic.fileToGenerativePart file s
            = (Normal {| id_mimeType := file_type file;
                         id_data := Some payload;
                         id_url := None |},
               s, [])))
  /\ (forall result,
        file_dataURL file = Some result ->
        JS.includes "," result = false ->
        forall s,
          HistoryBuild.fileToGenerativePart file s
          = (Normal {| HistoryBuild.gp_mimeType := file_type file;
                       HistoryBuild.gp_data := None;
                       HistoryBuild.gp_url := result |},
             s, []))
  /\ (file_dataURL file = None ->
      forall s,
        HistoryBuild.fileToGenerativePart file s = (Throw, s, [])).
Proof.
  split; [|split].
  - intros head payload Hread Hhead Hpayload.
    unfold HistoryBuild.fileToGenerativePart, Basic.fileToGenerativePart.
    rewrite Hread. cbv zeta. rewrite (payload_of_dataURL _ _ Hhead Hpayload).
    split; reflexivity.
  - intros result Hread Hfree s.
    unfold HistoryBuild.fileToGenerativePart.
    rewrite Hread. cbv zeta. rewrite (split_commaFree _ Hfree). reflexivity.
  - intros Hread s. unfold HistoryBuild.fileToGenerativePart. rewrite Hread. reflexivity.
Qed.

Lemma fileToGenerativePart_by_read_witness :
  HistoryBuild.fileToGenerativePart (pngFile "me.png" "UEhPVE8=") blankPage
  = (Normal {| HistoryBuild.gp_mimeType := "image/png";
               HistoryBuild.gp_data := Some "UEhPVE8=";
               HistoryBuild.gp_url := "data:image/png;base64,UEhPVE8=" |},
     blankPage, [])
  /\ HistoryBuild.fileToGenerativePart
       {| file_name := "note.txt"; file_type := "text/plain";
          file_dataURL := Some "no comma here" |} blankPage
     = (Normal {| HistoryBuild.gp_mimeType := "text/plain";
                  HistoryBuild.gp_data := None;
                  HistoryBuild.gp_url := "no comma here" |},
        blankPage, [])
  /\ HistoryBuild.fileToGenerativePart
       {| file_name := "gone.png"; file_type := "image/png"; file_dataURL := None |}
       blankPage
     = (Throw, blankPage, []).
Proof.
  destruct (fileToGenerativePart_by_read (pngFile "me.png" "UEhPVE8=")) as (Hok & _ & _).
  destruct (fileToGenerativePart_by_read
              {| file_name := "note.txt"; file_type := "text/plain";
                 file_dataURL := Some "no comma here" |}) as (_ & Hnone & _).
  destruct (fileToGenerativePart_by_read
              {| file_name := "gone.png"; file_type := "image/png";
                 file_dataURL := None |}) as (_ & _ & Hthrow).
  split; [|split].
  - exact (proj1 (Hok "data:image/png;base64" "UEhPVE8=" eq_refl eq_refl eq_refl) blankPage).
  - exact (Hnone "no comma here" eq_refl eq_refl blankPage).
  - exact (Hthrow eq_refl blankPage).
Defined.

(** A source the extraction built, read back as the data URL of a file:
    when the MIME type and the data of the image hold no comma, the part
    built from the file carries exactly the data of the image. *)
Theorem extracted_source_reads_back (b : Blob) (file : File) :
  JS.includes "," (mimeType b) = false ->
  JS.includes "," (data b) = false ->
  file_dataURL file = Some (dataURL b) ->
  forall s,
    HistoryBuild.fileToGenerativePart file s
    = (Normal {| HistoryBuild.gp_mimeType := file_type file;
                 HistoryBuild.gp_data := Some (data b);
                 HistoryBuild.gp_url := dataURL b |},
       s, []).
Proof.
  intros Hmime Hdata Hread s.
  assert (Hsplit : dataURL b = (("data:" ++ mimeType b ++ ";base64") ++ "," ++ data b)%string).
  { unfold dataURL. rewrite !string_app_assoc. reflexivity. }
  destruct (fileToGenerativePart_by_read file) as (Hok & _).
  rewrite Hsplit in Hread |- *.
  apply (Hok _ _ Hread); [|exact Hdata].
  rewrite !includes_comma_app, Hmime. reflexivity.
Qed.

Lemma extracted_source_reads_back_witness :
  HistoryBuild.fileToGenerativePart
    {| file_name := "variant.png"; file_type := "image/png";
       file_dataURL := Some "data:image/png;base64,AAAA" |} blankPage
  = (Normal {| HistoryBuild.gp_mimeType := "image/png";
               HistoryBuild.gp_data := Some "AAAA";
               HistoryBuild.gp_url := "data:image/png;base64,AAAA" |},
     blankPage, []).
Proof.
  exact (extracted_source_reads_back {| mimeType := "image/png"; data := "AAAA" |}
           {| file_name := "variant.png"; file_type := "image/png";
              file_dataURL := Some "data:image/png;base64,AAAA" |}
           eq_refl eq_refl eq_refl blankPage).
Defined.

End DataURLs.

(** *** The theme switcher *)

Section ThemeSwitcher.

Import Theme.

(** A click on the theme toggle flips the theme and stores the name of the
    new one; a second click brings the first theme back; and a reload after
    a click comes up in the theme of the click, whatever class the markup
    gives the body and whatever the media query answers. *)
Theorem theme_toggle_persists (s : State) (markupDark prefersDark : bool) :
  let s1 := themeToggleClick s in
  darkMode s1 = negb (darkMode s)
  /\ storedTheme s1 = Some (if darkMode s1 then "dark" else "light")
  /\ darkMode (themeToggleClick s1) = darkMode s
  /\ darkMode (reload markupDark prefersDark s1) = darkMode s1
  /\ storedTheme (reload markupDark prefersDark s1) = storedTheme s1.
Proof.
  destruct s as [dark stored]. destruct dark; repeat split.
Qed.

(** The theme at load.  A stored name that is not empty decides alone: the
    page is dark exactly when the name is "dark", any other name gives the
    light theme; without a stored name, or with an empty one, the media
    query decides.  The setup never writes the storage. *)
Theorem theme_at_load (s : State) (prefersDark : bool) :
  storedTheme (initialSetup prefersDark s) = storedTheme s
  /\ match storedTheme s with
     | None => darkMode (initialSetup prefersDark s) = prefersDark
     | Some EmptyString => darkMode (initialSetup prefersDark s) = prefersDark
     | Some name => darkMode (initialSetup prefersDark s) = String.eqb name "dark"
     end.
Proof.
  destruct s as [dark [[|c name]|]]; unfold initialSetup, applyTheme;
    cbn [storedTheme JS.or_else].
  - destruct prefersDark; split; reflexivity.
  - destruct (String.eqb (String c name) "dark"); split; reflexivity.
  - destruct prefersDark; split; reflexivity.
Qed.

End ThemeSwitcher.

(** *** The upload form and the camera *)

Section CameraDialog.

Import Camera.

Lemma index_stopTracksOf (id n : nat) (streams : list MediaStream) :
  JS.index (stopTracksOf id streams) n
  = if Nat.eqb n id then option_map (map stopTrack) (JS.index streams n)
    else JS.index streams n.
Proof.
  unfold JS.index. revert id n.
  induction streams as [|tracks rest IH]; intros id n.
  - destruct id, n; cbn [stopTracksOf nth_error]; destruct (Nat.eqb _ _); reflexivity.
  - destruct id as [|id], n as [|n]; cbn [stopTracksOf nth_error Nat.eqb option_map];
      try reflexivity.
    apply IH.
Qed.

Lemma stopTracksOf_idempotent (id : nat) (streams : list MediaStream) :
  stopTracksOf id (stopTracksOf id streams) = stopTracksOf id streams.
Proof.
  revert id. induction streams as [|tracks rest IH]; intros id; [destruct id; reflexivity|].
  destruct id as [|id]; cbn [stopTracksOf].
  - rewrite map_map. reflexivity.
  - rewrite IH. reflexivity.
Qed.

Lemma length_stopTracksOf (id : nat) (streams : list MediaStream) :
  List.length (stopTracksOf id streams) = List.length streams.
Proof.
  revert id. induction streams as [|tracks rest IH]; intros id;
    destruct id; cbn [stopTracksOf List.length]; auto.
Qed.

Lemma stopped_tracks (tracks : MediaStream) :
  Forall (fun t => track_live t = false) (map stopTrack tracks).
Proof. induction tracks; constructor; auto. Qed.

(** [closeCamera] releases the camera: every track of the stream the
    variable [stream] refers to is stopped, the dialog is hidden and no
    upload input is the active target any more.  It stops no track of any
    other stream, it touches neither the files nor the labels nor the
    generate button, and closing twice is closing once. *)
Theorem closeCamera_releases_stream (s : State) :
  let s' := closeCamera s in
  activeCameraTarget s' = None
  /\ cameraModal_display s' = "none"
  /\ (forall id tracks,
        stream s = Some id ->
        JS.index (media s') id = Some tracks ->
        Forall (fun t => track_live t = false) tracks)
  /\ (forall n, stream s <> Some n -> JS.index (media s') n = JS.index (media s) n)
  /\ inputs s' = inputs s
  /\ page s' = page s
  /\ productLabel s' = productLabel s
  /\ photoLabel s' = photoLabel s
  /\ closeCamera s' = s'.
Proof.
  destruct s as [i p pl phl opl ophl target [id|] streams video modal disabled txt spin canvas];
    unfold closeCamera;
    cbn [stream media set_media set_cameraModal_display set_activeCameraTarget
         activeCameraTarget cameraModal_display inputs page productLabel photoLabel
         originalProductLabel originalPhotoLabel cameraVideo_srcObject
         cameraConfirm_disabled cameraConfirmText cameraConfirmSpinner cameraCanvas].
  - repeat split.
    + intros id' tracks Hid Htracks. injection Hid as <-.
      rewrite index_stopTracksOf, Nat.eqb_refl in Htracks.
      destruct (JS.index streams id) as [live|]; [|discriminate Htracks].
      injection Htracks as <-. apply stopped_tracks.
    + intros n Hn. rewrite index_stopTracksOf.
      destruct (Nat.eqb_spec n id) as [->|_]; [contradiction Hn; reflexivity|reflexivity].
    + rewrite stopTracksOf_idempotent. reflexivity.
  - repeat split; discriminate.
Qed.

(** [openCamera], by what the platform answers.  With a stream, the stream
    is the one [stream] and the video refer to, the dialog is shown, the
    confirm button is disabled until a frame is captured, and nobody is
    alerted.  Without one, the user is alerted and the error logged, the
    dialog stays as it was and [stream] keeps referring to the last stream;
    the target of the failed call stays the active target. *)
Theorem openCamera_by_answer (s : State) (target : option Target) :
  (forall tracks,
      let run := openCamera (Some tracks) target s in
      eventsOf run = []
      /\ activeCameraTarget (stateOf run) = target
      /\ stream (stateOf run) = Some (List.length (media s))
      /\ cameraVideo_srcObject (stateOf run) = Some (List.length (media s))
      /\ media (stateOf run) = media s ++ [tracks]
      /\ JS.index (media (stateOf run)) (List.length (media s)) = Some tracks
      /\ cameraModal_display (stateOf run) = "flex"
      /\ cameraConfirm_disabled (stateOf run) = true)
  /\ (let run := openCamera None target s in
      eventsOf run = [ConsoleError "Error accessing camera:"; Alert missingCameraMessage]
      /\ activeCameraTarget (stateOf run) = target
      /\ stream (stateOf run) = stream s
      /\ media (stateOf run) = media s
      /\ cameraModal_display (stateOf run) = cameraModal_display s
      /\ cameraConfirm_disabled (stateOf run) = cameraConfirm_disabled s).
Proof.
  split.
  - intros tracks. cbv zeta. unfold openCamera. step_eff.
    repeat split.
    cbn [media set_media set_stream set_cameraVideo_srcObject set_cameraModal_display
         set_cameraConfirm_disabled set_activeCameraTarget].
    unfold JS.index. rewrite nth_error_app2 by lia. rewrite Nat.sub_diag. reflexivity.
  - cbv zeta. unfold openCamera. step_eff. repeat split.
Qed.

Ltac open_page s :=
  destruct s as [i p productLabel0 photoLabel0 originalProduct originalPhoto
                   target0 stream0 streams video modal disabled text0 spinner0 canvas].

(** The whole capture: the camera opened for an upload input whose label
    exists, a frame captured, the capture confirmed.  The input then holds
    exactly one file, [capture.jpg] of type [image/jpeg] with the content of
    the canvas; the other input is as it was; the label shows the name of
    the file; the generate button is enabled exactly when both inputs hold a
    file; and the camera is released: no active target, the dialog hidden,
    every track of the stream of this capture stopped. *)
Theorem capture_installs_photo_and_releases_camera
  (s : State) (target : Target) (tracks : MediaStream) (blob : CanvasBlob) :
  labelOf target s <> None ->
  let opened := stateOf (openCamera (Some tracks) (Some target) s) in
  let s' := cameraConfirmClick (cameraCaptureClick (Some blob) opened) in
  inputFiles target (inputs s') = Some [captureFile blob]
  /\ (forall other, other <> target ->
                    inputFiles other (inputs s') = inputFiles other (inputs s))
  /\ labelOf target s' = Some "capture.jpg"
  /\ HistoryBuild.generateButton_disabled (page s')
     = negb (HistoryBuild.isUploaded (productUpload_files (inputs s'))
             && HistoryBuild.isUploaded (photoUpload_files (inputs s')))
  /\ activeCameraTarget s' = None
  /\ cameraModal_display s' = "none"
  /\ JS.index (media s') (List.length (media s)) = Some (map stopTrack tracks)
  /\ cameraConfirm_disabled s' = false.
Proof.
  intros Hlabel. cbv zeta. unfold openCamera. step_eff.
  assert (Hstopped : JS.index (stopTracksOf (List.length (media s)) (media s ++ [tracks]))
                       (List.length (media s)) = Some (map stopTrack tracks)).
  { rewrite index_stopTracksOf, Nat.eqb_refl. unfold JS.index.
    rewrite nth_error_app2 by lia. rewrite Nat.sub_diag. reflexivity. }
  open_page s.
  destruct target; cbn [labelOf productLabel photoLabel] in Hlabel;
    [destruct productLabel0 as [label|]|destruct photoLabel0 as [label|]];
    try contradiction;
    destruct text0 as [text0|], spinner0 as [spinner0|];
    cbv in Hstopped |- *;
    (repeat split;
     [ intros [|] Hother; [try contradiction; reflexivity ..]
     | exact Hstopped ]).
Qed.

Lemma capture_installs_photo_and_releases_camera_witness :
  let s := mkState readyInputs blankPage (Some "Upload Product") (Some "Upload Scene")
             "Upload Product" "Upload Scene" None None [] None "none" true
             (Some "Use Photo") (Some "none") None in
  let tracks := [ {| track_kind := "video"; track_live := true |} ] in
  let blob := {| blob_dataURL := Some "data:image/jpeg;base64,SlBFRw==" |} in
  let opened := stateOf (openCamera (Some tracks) (Some PhotoUpload) s) in
  let s' := cameraConfirmClick (cameraCaptureClick (Some blob) opened) in
  photoUpload_files (inputs s')
  = Some [ {| file_name := "capture.jpg"; file_type := "image/jpeg";
              file_dataURL := Some "data:image/jpeg;base64,SlBFRw==" |} ]
  /\ photoLabel s' = Some "capture.jpg"
  /\ media s' = [ [ {| track_kind := "video"; track_live := false |} ] ].
Proof.
  intros s tracks blob opened s'.
  assert (Hlabel : labelOf PhotoUpload s <> None) by discriminate.
  destruct (capture_installs_photo_and_releases_camera s PhotoUpload tracks blob Hlabel)
    as (Hfiles & _ & Hshown & _).
  split; [exact Hfiles|]. split; [exact Hshown|]. vm_compute. reflexivity.
Defined.


(** The confirm button without a photo to install.  With no active target
    the click does nothing at all.  With a target but a canvas that encodes
    to nothing, no file is installed and no label changes, yet the camera is
    closed all the same. *)
Theorem cameraConfirmClick_without_photo (s : State) :
  (activeCameraTarget s = None -> cameraConfirmClick s = s)
  /\ (forall target,
        activeCameraTarget s = Some target ->
        cameraCanvas s = None ->
        inputs (cameraConfirmClick s) = inputs s
        /\ productLabel (cameraConfirmClick s) = productLabel s
        /\ photoLabel (cameraConfirmClick s) = photoLabel s
        /\ page (cameraConfirmClick s) = page s
        /\ activeCameraTarget (cameraConfirmClick s) = None
        /\ cameraModal_display (cameraConfirmClick s) = "none"
        /\ media (cameraConfirmClick s) = media (closeCamera s)).
Proof.
  open_page s. cbn [activeCameraTarget cameraCanvas]. split.
  - intros ->. reflexivity.
  - intros target -> ->.
    destruct text0 as [text0|], spinner0 as [spinner0|], stream0 as [id|];
      cbv; repeat split.
Qed.

Lemma cameraConfirmClick_without_photo_witness :
  let s := mkState readyInputs blankPage (Some "Upload Product") (Some "Upload Scene")
             "Upload Product" "Upload Scene" (Some ProductUpload) (Some 0)
             [ [ {| track_kind := "video"; track_live := true |} ] ] (Some 0) "flex" false
             (Some "Use Photo") (Some "none") None in
  inputs (cameraConfirmClick s) = readyInputs
  /\ cameraConfirmClick (set_activeCameraTarget None s) = set_activeCameraTarget None s.
Proof.
  intros s. split.
  - exact (proj1 (proj2 (cameraConfirmClick_without_photo s) ProductUpload eq_refl eq_refl)).
  - exact (proj1 (cameraConfirmClick_without_photo (set_activeCameraTarget None s)) eq_refl).
Defined.

(** [closeCamera] stops the stream opened last and no other: when the
    camera is opened a second time before it is closed, the variable
    [stream] moves on to the second stream, and closing stops the tracks of
    the second stream while those of the first stay as the platform handed
    them out. *)
Theorem second_open_leaves_first_stream_running
  (s : State) (first second : MediaStream) (target1 target2 : option Target) :
  let s1 := stateOf (openCamera (Some first) target1 s) in
  let s2 := stateOf (openCamera (Some second) target2 s1) in
  let s' := closeCamera s2 in
  JS.index (media s') (List.length (media s)) = Some first
  /\ JS.index (media s') (S (List.length (media s))) = Some (map stopTrack second)
  /\ stream s' = Some (S (List.length (media s)))
  /\ activeCameraTarget s' = None.
Proof.
  cbv beta iota zeta delta
    [openCamera bind tryCatchFinally modify ret stateOf fst snd].
  open_page s. unfold closeCamera.
  cbn [stream media set_media set_stream set_cameraVideo_srcObject
       set_cameraModal_display set_cameraConfirm_disabled set_activeCameraTarget
       activeCameraTarget].
  rewrite !length_app. cbn [List.length].
  replace (List.length streams + 1) with (S (List.length streams)) by lia.
  rewrite !index_stopTracksOf, Nat.eqb_refl.
  replace (Nat.eqb (List.length streams) (S (List.length streams))) with false
    by (symmetry; apply Nat.eqb_neq; lia).
  unfold JS.index.
  repeat split.
  - rewrite <- app_assoc. rewrite nth_error_app2 by lia.
    rewrite Nat.sub_diag. reflexivity.
  - rewrite nth_error_app2 by (rewrite length_app; cbn [List.length]; lia).
    rewrite length_app. cbn [List.length].
    replace (S (List.length streams) - (List.length streams + 1)) with 0 by lia.
    reflexivity.
Qed.

(** The generate button and the guard of its click.  The validity check of
    the form enables the button exactly when both upload inputs hold a
    file; the API key is no part of it.  So a click on the enabled button
    passes the guard when the key is set, and when the key is unset or empty
    the button is enabled all the same and every click on it is rejected
    with the alert of the missing input. *)
Theorem enabled_button_and_guard (i : Inputs) (p : HistoryBuild.State) :
  (HistoryBuild.generateButton_disabled (HistoryBuild.checkFormValidity i p) = false
   <-> JS.first (productUpload_files i) <> None /\ JS.first (photoUpload_files i) <> None)
  /\ (HistoryBuild.generateButton_disabled (HistoryBuild.checkFormValidity i p) = false ->
      JS.truthy (API_KEY i) = true ->
      exists productFile photoFile,
        inputsReady i = Some (productFile, photoFile)
        /\ JS.first (productUpload_files i) = Some productFile
        /\ JS.first (photoUpload_files i) = Some photoFile)
  /\ (HistoryBuild.generateButton_disabled (HistoryBuild.checkFormValidity i p) = false ->
      JS.truthy (API_KEY i) = false ->
      forall prompt service s,
        HistoryBuild.generateClick prompt service i s
        = (Normal tt, s, [Alert HistoryBuild.missingInputMessage])).
Proof.
  assert (Hbutton :
            HistoryBuild.generateButton_disabled (HistoryBuild.checkFormValidity i p)
            = negb (HistoryBuild.isUploaded (productUpload_files i)
                    && HistoryBuild.isUploaded (photoUpload_files i)))
    by reflexivity.
  rewrite Hbutton, !isUploaded_first. unfold inputsReady.
  destruct (JS.first (productUpload_files i)) as [productFile|],
           (JS.first (photoUpload_files i)) as [photoFile|];
    cbn [negb andb]; (split; [|split]).
  all: try (intros H; discriminate H).
  all: try (split; [intros _; split; discriminate | reflexivity ]).
  all: try (split; [discriminate | intros [H1 H2]; contradiction ]).
  - intros _ ->. exists productFile, photoFile. repeat split.
  - intros _ Hkey prompt service s.
    apply generateClick_missing. unfold inputsReady. rewrite Hkey.
    destruct (JS.first (productUpload_files i)), (JS.first (photoUpload_files i));
      reflexivity.
Qed.

Lemma enabled_button_and_guard_witness :
  let i := {| productUpload_files := Some [pngFile "shirt.png" "UFJPRA=="];
              photoUpload_files := Some [pngFile "me.png" "UEhPVE8="];
              API_KEY := None;
              scaleSlider_value := "40";
              shadowSlider_value := "0.6";
              placementSelect_value := "center" |} in
  HistoryBuild.generateButton_disabled (HistoryBuild.checkFormValidity i blankPage) = false
  /\ Composite.generateClick twoImages i blankPage
     = (Normal tt, blankPage, [Alert "Please provide both product and scene photos."])
  /\ exists productFile photoFile,
      inputsReady readyInputs = Some (productFile, photoFile)
      /\ JS.first (productUpload_files readyInputs) = Some productFile
      /\ JS.first (photoUpload_files readyInputs) = Some photoFile.
Proof.
  intros i.
  split; [reflexivity|]. split.
  - exact (proj2 (proj2 (enabled_button_and_guard i blankPage)) eq_refl eq_refl
             Composite.prompt twoImages blankPage).
  - exact (proj1 (proj2 (enabled_button_and_guard readyInputs blankPage)) eq_refl eq_refl).
Defined.

(** Two captures make the form ready: after a capture for the product input
    and one for the photo input, on a page with both labels and a set API
    key, the generate button is enabled, the guard of a click passes with
    the two captured files, product first, and the tracks of both streams
    are stopped. *)
Theorem two_captures_make_form_ready
  (s : State) (tracks1 tracks2 : MediaStream) (blob1 blob2 : CanvasBlob) :
  productLabel s <> None ->
  photoLabel s <> None ->
  JS.truthy (API_KEY (inputs s)) = true ->
  let capture target tracks blob page :=
    cameraConfirmClick
      (cameraCaptureClick (Some blob)
         (stateOf (openCamera (Some tracks) (Some target) page))) in
  let s' := capture PhotoUpload tracks2 blob2 (capture ProductUpload tracks1 blob1 s) in
  inputsReady (inputs s') = Some (captureFile blob1, captureFile blob2)
  /\ HistoryBuild.generateButton_disabled (page s') = false
  /\ JS.index (media s') (List.length (media s)) = Some (map stopTrack tracks1)
  /\ JS.index (media s') (S (List.length (media s))) = Some (map stopTrack tracks2).
Proof.
  intros Hproduct Hphoto Hkey.
  open_page s. destruct i as [productFiles photoFiles key scale shadow placement].
  cbn [productLabel photoLabel inputs API_KEY media] in *.
  destruct productLabel0 as [label1|]; [|contradiction].
  destruct photoLabel0 as [label2|]; [|contradiction].
  destruct key as [[|c key]|]; try discriminate Hkey.
  destruct text0 as [text0|], spinner0 as [spinner0|];
    cbv -[stopTracksOf List.length List.app map stopTrack JS.index captureFile];
    rewrite !length_stopTracksOf, !length_app; cbn [List.length];
    rewrite !Nat.add_1_r;
    rewrite !index_stopTracksOf, !Nat.eqb_refl;
    rewrite (proj2 (Nat.eqb_neq _ _) (Nat.neq_succ_diag_r _));
    unfold JS.index;
    (repeat split;
     [ rewrite nth_error_app1
         by (rewrite length_stopTracksOf, length_app; cbn [List.length]; lia);
       fold (JS.index (stopTracksOf (List.length streams) (streams ++ [tracks1]))
               (List.length streams));
       rewrite index_stopTracksOf, Nat.eqb_refl; unfold JS.index;
       rewrite nth_error_app2 by lia; rewrite Nat.sub_diag; reflexivity
     | rewrite nth_error_app2
         by (rewrite length_stopTracksOf, length_app; cbn [List.length]; lia);
       rewrite length_stopTracksOf, length_app; cbn [List.length];
       rewrite Nat.add_1_r, Nat.sub_diag;
       reflexivity ]).
Qed.

Lemma two_captures_make_form_ready_witness :
  let s := mkState
             {| productUpload_files := None; photoUpload_files := None;
                API_KEY := Some "key"; scaleSlider_value := "40";
                shadowSlider_value := "0.6"; placementSelect_value := "center" |}
             blankPage (Some "Upload Product") (Some "Upload Scene")
             "Upload Product" "Upload Scene" None None [] None "none" true
             (Some "Use Photo") (Some "none") None in
  let track := {| track_kind := "video"; track_live := true |} in
  let shot (payload : string) := {| blob_dataURL := Some payload |} in
  let capture target tracks blob page :=
    cameraConfirmClick
      (cameraCaptureClick (Some blob)
         (stateOf (openCamera (Some tracks) (Some target) page))) in
  let s' := capture PhotoUpload [track] (shot "data:image/jpeg;base64,Mg==")
              (capture ProductUpload [track] (shot "data:image/jpeg;base64,MQ==") s) in
  inputsReady (inputs s')
  = Some (captureFile (shot "data:image/jpeg;base64,MQ=="),
          captureFile (shot "data:image/jpeg;base64,Mg=="))
  /\ liveTracks s' = 0.
Proof.
  intros s track shot capture s'.
  assert (Hproduct : productLabel s <> None) by discriminate.
  assert (Hphoto : photoLabel s <> None) by discriminate.
  destruct (two_captures_make_form_ready s [track] [track]
              (shot "data:image/jpeg;base64,MQ==") (shot "data:image/jpeg;base64,Mg==")
              Hproduct Hphoto eq_refl) as (Hready & _).
  split; [exact Hready|]. vm_compute. reflexivity.
Defined.

End CameraDialog.

(** *** The prompts, for all values *)

(** Each prompt is its template with the values of the inputs spliced in
    verbatim, whatever they are: the try-on prompt the scale alone, between
    "approximately " and "% of the person's torso height"; the composite and
    the plain prompt the placement, the scale and the shadow, in this order,
    the plain one with the shadow as a percentage.  The texts around the
    values are fixed and hold no placeholder. *)
Theorem prompts_are_templates_with_values :
  (exists before after,
      (forall i, TryOn.prompt i = (before ++ scaleSlider_value i ++ after)%string)
      /\ JS.includes "${" before = false /\ JS.includes "${" after = false
      /\ JS.includes "scaled to approximately " before = true
      /\ String.prefix "% of the person's torso height" after = true)
  /\ (exists a b c d,
        (forall i,
            Composite.prompt i
            = (a ++ placementSelect_value i ++ b ++ scaleSlider_value i
                 ++ c ++ shadowSlider_value i ++ d)%string)
        /\ JS.includes "${" (a ++ b ++ c ++ d) = false
        /\ String.prefix " area." b = true
        /\ String.prefix "% of the photo's width." c = true
        /\ String.prefix " (where 0.0 is none and 1.0 is dark)." d = true)
  /\ (exists a b c d,
        (forall i,
            Basic.prompt i
            = (a ++ placementSelect_value i ++ b ++ scaleSlider_value i
                 ++ c ++ shadowSlider_value i ++ d)%string)
        /\ JS.includes "${" (a ++ b ++ c ++ d) = false
        /\ String.prefix " area." b = true
        /\ String.prefix "% of the photo's width." c = true
        /\ String.prefix "%." d = true).
Proof.
  split; [|split].
  - exists (joinLines
              [ "Task: Virtual Try-On.";
                "";
                "Base image: The second image provided (the user's photo).";
                "Product image: The first image provided (the clothing item).";
                "";
                "Instructions:";
                "1. Identify the main person in the base image.";
                "2. Replace the clothing worn by the person (e.g., dress, shirt, top) with the clothing from the product image.";
                "3. The new clothing should be scaled to approximately " ]).
    exists (joinLines
              [ "% of the person's torso height to ensure a good fit.";
                "4. Realistically adapt the product to the person's body shape, posture, and pose.";
                "5. Match the lighting, shadows, and color temperature of the base image to create a seamless, photorealistic result.";
                "6. Do not modify the person's face, body, or the background. Only change the clothing.";
                "7. Generate 3 variants with slight variations in fit and drape." ]).
    split; [|repeat split; vm_compute; reflexivity].
    intros i. unfold TryOn.prompt, joinLines.
    cbn [String.concat]. rewrite !string_app_assoc. reflexivity.
  - exists (joinLines
              [ "Base image: The second image provided (the photo). Overlay image: The first image provided (the product).";
                "";
                "Task: Insert the product from the overlay image into the base image at the " ]).
    exists (joinLines [ " area."; "Scale the product to about " ]).
    exists (joinLines
              [ "% of the photo's width.";
                "Match the scene’s lighting, color temperature, and perspective.";
                "Add realistic shadows with an intensity of about " ]).
    exists (joinLines
              [ " (where 0.0 is none and 1.0 is dark).";
                "Do not modify the person’s face or the background.";
                "Output a natural-looking, high-resolution composite suitable for a premium ecommerce preview.";
                "Generate 3 variants with slight rotation differences." ]).
    split; [|repeat split; vm_compute; reflexivity].
    intros i. unfold Composite.prompt, joinLines.
    cbn [String.concat]. rewrite !string_app_assoc. reflexivity.
  - exists (joinLines
              [ "Base image: The second image provided (the photo). Overlay image: The first image provided (the product).";
                "";
                "Task: Insert the product from the overlay image into the base image at the " ]).
    exists (joinLines [ " area."; "Scale the product to about " ]).
    exists (joinLines
              [ "% of the photo's width.";
                "Match the scene’s lighting, color temperature, and perspective.";
                "Add realistic shadows with an intensity of about " ]).
    exists (joinLines
              [ "%.";
                "Do not modify the person’s face or the background.";
                "Output a natural-looking, high-resolution composite suitable for a premium ecommerce preview.";
                "Generate 3 variants with slight rotation differences." ]).
    split; [|repeat split; vm_compute; reflexivity].
    intros i. unfold Basic.prompt, joinLines.
    cbn [String.concat]. rewrite !string_app_assoc. reflexivity.
Qed.

(** *** Instances *)

Lemma click_leaves_loading_state_witness :
  let s' := stateOf (Composite.generateClick failing readyInputs blankPage) in
  HistoryBuild.generateButton_disabled s' = false
  /\ HistoryBuild.buttonText s' = "Generate"
  /\ HistoryBuild.spinner_display s' = "none"
  /\ HistoryBuild.comparisonContainer_loading s' = false.
Proof.
  exact (click_leaves_loading_state Composite.prompt failing readyInputs blankPage
           _ _ eq_refl).
Defined.

Lemma failed_click_hides_output_witness :
  let s := stateOf (Composite.generateClick twoImages readyInputs blankPage) in
  let s' := stateOf (Composite.generateClick textOnly otherInputs s) in
  HistoryBuild.outputContainer_display s' = "none"
  /\ HistoryBuild.downloadButton_display s' = "none"
  /\ HistoryBuild.variantsContainer s'
     = [HistoryBuild.Placeholder; HistoryBuild.Placeholder; HistoryBuild.Placeholder]
  /\ HistoryBuild.currentGeneratedSources s' = HistoryBuild.currentGeneratedSources s.
Proof.
  intros s.
  apply (failed_click_hides_output Composite.prompt textOnly otherInputs s _ _
           "Could not generate an image. Model response: I cannot do that." eq_refl).
  right. left. reflexivity.
Defined.


Lemma generateClick_success_witness :
  let run := Composite.generateClick twoImages readyInputs blankPage in
  HistoryBuild.currentGeneratedSources (stateOf run)
  = ["data:image/png;base64,AAAA"; "data:image/png;base64,BBBB"]
  /\ HistoryBuild.beforeImage_src (stateOf run) = "data:image/png;base64,UEhPVE8="
  /\ JS.index (HistoryBuild.history (stateOf run)) 0
     = Some (item "data:image/png;base64,UEhPVE8="
               ["data:image/png;base64,AAAA"; "data:image/png;base64,BBBB"]).
Proof.
  assert (Hcount : (0 < imageCount
                         (responseOf
                            [imagePart "AAAA"; textPart "Here you are."; imagePart "BBBB"]
                            (Some "Here you are.")))%nat)
    by (vm_compute; lia).
  exact (generateClick_success Composite.prompt twoImages readyInputs blankPage
           (pngFile "shirt.png" "UFJPRA==") (pngFile "me.png" "UEhPVE8=")
           "data:image/png;base64,UFJPRA==" "data:image/png;base64,UEhPVE8="
           _ eq_refl eq_refl eq_refl eq_refl Hcount).
Defined.

Lemma closeCamera_releases_stream_witness :
  let track := {| Camera.track_kind := "video"; Camera.track_live := true |} in
  let s := Camera.mkState readyInputs blankPage (Some "Upload Product") (Some "Upload Scene")
             "Upload Product" "Upload Scene" (Some Camera.PhotoUpload) (Some 1)
             [ [track]; [track; track] ] (Some 1) "flex" false
             (Some "Use Photo") (Some "none") None in
  Forall (fun t => Camera.track_live t = false)
    [Camera.stopTrack track; Camera.stopTrack track]
  /\ JS.index (Camera.media (Camera.closeCamera s)) 0 = Some [track].
Proof.
  intros track s.
  destruct (closeCamera_releases_stream s) as (_ & _ & Hstopped & Hothers & _).
  split.
  - apply (Hstopped 1); reflexivity.
  - etransitivity; [apply (Hothers 0); discriminate|reflexivity].
Defined.
